(** * lib/schema/date.js: the Date schema type

    A shallow embedding of [SchemaDate] (casting, the replaceable [min] and
    [max] validators, query casting) over a small model of the JavaScript
    values the code inspects, followed by the properties of the
    specification that concern it. *)

From Stdlib Require Import ZArith Strings.Ascii.
From Stdlib Require Import Floats.PrimFloat Floats.SpecFloat Floats.FloatOps.
From Stdlib Require Import Floats.FloatAxioms.
From stdpp Require Import gmap strings list.

Set Default Proof Using "Type".
Local Open Scope string_scope.

(** ** The JavaScript values the module handles *)

Module JS.

(** A Number is an IEEE-754 binary64, as in the language. *)
Definition number : Set := float.

Definition loc := positive.

(** Primitive values, the built-in function [Date.now] (one function object,
    compared by identity) and references to heap objects. *)
Inductive value :=
| VUndefined
| VNull
| VBool (b : bool)
| VNumber (n : number)
| VString (s : string)
| VSymbol (id : nat)
| VDateNow
| VObject (l : loc).

(** The function objects the module creates or is handed: [Date.now] and the
    closures that [min] and [max] install, each closing over its bound. *)
Inductive function :=
| FDateNow
| FMinValidator (value : value)
| FMaxValidator (value : value).

(** Heap objects.  [ODate t] is a Date instance with time value [t];
    [ONumber], [OBoolean] and [OString] are the boxed primitives;
    [OOrdinary vo ts] is any other object (a plain object, a moment.js
    wrapper, a user function), described by what calling its [valueOf] and
    [toString] returns, [None] when the property is not callable.  Such a
    method is taken by its result alone: a method that throws, writes or
    answers differently from one call to the next is outside this model,
    and the properties that speak of every outcome of a cast are stated for
    the candidates whose methods are the built-in ones. *)
Inductive object :=
| ODate (t : number)
| ONumber (n : number)
| OBoolean (b : bool)
| OString (s : string)
| OFunction (f : function)
| OOrdinary (valueOf : option value) (toString : option value).

Inductive exn :=
| CastError (kind : string) (value : value) (path : string)
| TypeError
| Error (message : string)
| Dangling (l : loc).  (* a reference to no object: model only *)

Inductive completion (A : Type) :=
| Normal (a : A)
| Throw (e : exn).
Arguments Normal {A} a.
Arguments Throw {A} e.

(** What the host runtime decides: the text formats of numbers, dates and
    functions, and the two parsers. *)
Class Host := {
  StringToNumber : string → number;
  StringToNumber_empty : StringToNumber "" = 0%float;
  Date_parse : string → number;
  Date_toString : number → string;
  Number_toString : number → string;
  Function_toString : function → string
}.

(** [ToBoolean] *)
Definition ToBoolean (v : value) : bool :=
  match v with
  | VUndefined | VNull => false
  | VBool b => b
  | VNumber n => negb (is_nan n || is_zero n)
  | VString s => negb (String.eqb s "")
  | VSymbol _ | VDateNow | VObject _ => true
  end.

(** [x === y] *)
Definition strict_equal (x y : value) : bool :=
  match x, y with
  | VUndefined, VUndefined | VNull, VNull | VDateNow, VDateNow => true
  | VBool a, VBool b => Bool.eqb a b
  | VNumber a, VNumber b => (a =? b)%float
  | VString a, VString b => String.eqb a b
  | VSymbol a, VSymbol b => Nat.eqb a b
  | VObject a, VObject b => Pos.eqb a b
  | _, _ => false
  end.

Definition is_primitive (v : value) : bool :=
  match v with
  | VDateNow | VObject _ => false
  | _ => true
  end.

Definition Z2number (z : Z) : number :=
  SF2Prim (binary_normalize prec emax z 0 false).

(** [ToIntegerOrInfinity] on a Number: truncation toward zero. *)
Definition ToInteger (x : number) : number :=
  if is_nan x then 0%float else
  match Prim2SF x with
  | S754_finite s m e =>
      let z := match e with
               | Zneg p => Z.shiftr (Zpos m) (Zpos p)
               | _ => Z.shiftl (Zpos m) e
               end in
      Z2number (if s then Z.opp z else z)
  | _ => x
  end.

(** [TimeClip]: a time value is NaN or a whole number of milliseconds within
    8.64e15 of the epoch. *)
Definition TimeClip (time : number) : number :=
  if negb (is_finite time) then nan
  else if (8.64e15 <? abs time)%float then nan
  else (ToInteger time + 0)%float.

(** *** Completions over a mutable world

    The world is the receiver of the running method ([this]), the object
    heap and the wall clock that [Date.now] reads.  A computation returns a
    completion together with the world it leaves behind: what was assigned
    before a [throw] stays assigned. *)

Record state (T : Type) := State {
  this : T;
  heap : gmap loc object;
  clock : number
}.
Arguments State {T} this heap clock.
Arguments this {T} s.
Arguments heap {T} s.
Arguments clock {T} s.

Definition M (T A : Type) : Type := state T → completion A * state T.

Definition ret {T A} (a : A) : M T A := λ σ, (Normal a, σ).

Definition bind {T A B} (m : M T A) (k : A → M T B) : M T B := λ σ,
  match m σ with
  | (Normal a, σ') => k a σ'
  | (Throw e, σ') => (Throw e, σ')
  end.

Definition throw {T A} (e : exn) : M T A := λ σ, (Throw e, σ).

Declare Scope js_scope.
Delimit Scope js_scope with js.
Notation "x ← y ; z" := (bind y (λ x, z))
  (at level 20, y at level 100, z at level 200, only parsing) : js_scope.
Notation "x ;; z" := (bind x (λ _, z))
  (at level 100, z at level 200, only parsing, right associativity) : js_scope.
Local Open Scope js_scope.

Section Runtime.
Context {T : Type} `{Host}.

Definition get_this : M T T := λ σ, (Normal (this σ), σ).

Definition set_this (x : T) : M T unit := λ σ,
  (Normal (), State x (heap σ) (clock σ)).

(** [new]: a fresh location for the object. *)
Definition alloc (o : object) : M T value := λ σ,
  let l := fresh (dom (heap σ)) in
  (Normal (VObject l), State (this σ) (<[l := o]> (heap σ)) (clock σ)).

(** The object behind a value, [None] for a primitive. *)
Definition deref (v : value) : M T (option object) := λ σ,
  match v with
  | VObject l =>
      match heap σ !! l with
      | Some o => (Normal (Some o), σ)
      | None => (Throw (Dangling l), σ)
      end
  | VDateNow => (Normal (Some (OFunction FDateNow)), σ)
  | _ => (Normal None, σ)
  end.

(** [Date.now()] *)
Definition Date_now : M T value := λ σ, (Normal (VNumber (clock σ)), σ).

(** [v instanceof Date], [v instanceof Number] *)
Definition instanceof_Date (v : value) : M T bool :=
  o ← deref v;
  ret (match o with Some (ODate _) => true | _ => false end).

Definition instanceof_Number (v : value) : M T bool :=
  o ← deref v;
  ret (match o with Some (ONumber _) => true | _ => false end).

(** [typeof v.valueOf === 'function'], for [v] neither null nor undefined *)
Definition has_valueOf (v : value) : M T bool :=
  o ← deref v;
  ret (match o with Some (OOrdinary None _) => false | _ => true end).

(** [v.valueOf()].  The method of a Date, of a boxed primitive and of a
    function is the built-in one.  The method of an ordinary object is code
    of the caller; it stands here for the value that it returns. *)
Definition valueOf (v : value) : M T value :=
  match v with
  | VUndefined | VNull => throw TypeError
  | _ =>
      o ← deref v;
      match o with
      | Some (ODate t) => ret (VNumber t)
      | Some (ONumber n) => ret (VNumber n)
      | Some (OBoolean b) => ret (VBool b)
      | Some (OString s) => ret (VString s)
      | Some (OFunction _) => ret v
      | Some (OOrdinary (Some r) _) => ret r
      | Some (OOrdinary None _) => throw TypeError
      | None => ret v
      end
  end.

Inductive hint := HDefault | HNumber | HString.

Definition first_primitive (a b : option value) : M T value :=
  match a with
  | Some r => if is_primitive r then ret r else
      match b with
      | Some r' => if is_primitive r' then ret r' else throw TypeError
      | None => throw TypeError
      end
  | None =>
      match b with
      | Some r' => if is_primitive r' then ret r' else throw TypeError
      | None => throw TypeError
      end
  end.

(** [ToPrimitive]: a Date prefers its string form unless a number is asked
    for; every other object tries [valueOf] then [toString], or the reverse
    under the string hint. *)
Definition ToPrimitive (h : hint) (v : value) : M T value :=
  o ← deref v;
  match o with
  | None => ret v
  | Some (ODate t) =>
      match h with
      | HNumber => ret (VNumber t)
      | _ => ret (VString (Date_toString t))
      end
  | Some (ONumber n) =>
      match h with
      | HString => ret (VString (Number_toString n))
      | _ => ret (VNumber n)
      end
  | Some (OBoolean b) =>
      match h with
      | HString => ret (VString (if b then "true" else "false"))
      | _ => ret (VBool b)
      end
  | Some (OString s) => ret (VString s)
  | Some (OFunction f) => ret (VString (Function_toString f))
  | Some (OOrdinary vo ts) =>
      match h with
      | HString => first_primitive ts vo
      | _ => first_primitive vo ts
      end
  end.

(** [ToNumber] *)
Definition ToNumber (p : value) : M T number :=
  match p with
  | VUndefined => ret nan
  | VNull => ret 0%float
  | VBool b => ret (if b then 1%float else 0%float)
  | VNumber n => ret n
  | VString s => ret (StringToNumber s)
  | VSymbol _ => throw TypeError
  | VDateNow | VObject _ => p' ← ToPrimitive HNumber p;
      match p' with
      | VUndefined => ret nan
      | VNull => ret 0%float
      | VBool b => ret (if b then 1%float else 0%float)
      | VNumber n => ret n
      | VString s => ret (StringToNumber s)
      | _ => throw TypeError
      end
  end.

(** [ToString] *)
Definition ToString (v : value) : M T string :=
  p ← ToPrimitive HString v;
  match p with
  | VUndefined => ret "undefined"
  | VNull => ret "null"
  | VBool b => ret (if b then "true" else "false")
  | VNumber n => ret (Number_toString n)
  | VString s => ret s
  | _ => throw TypeError
  end.

(** The global [isNaN(v)] *)
Definition isNaN (v : value) : M T bool :=
  n ← ToNumber v;
  ret (is_nan n).

(** [new Date(v)]: the time value of a Date argument is copied; any other
    argument is reduced to a primitive, a string is parsed and anything else
    is read as epoch milliseconds. *)
Definition Date_time (v : value) : M T number :=
  o ← deref v;
  match o with
  | Some (ODate t) => ret t
  | _ =>
      p ← ToPrimitive HDefault v;
      match p with
      | VString s => ret (Date_parse s)
      | _ => ToNumber p
      end
  end.

Definition new_Date (v : value) : M T value :=
  tv ← Date_time v;
  alloc (ODate (TimeClip tv)).

(** [d.setTime(t)]: the Date [d] takes the time value [TimeClip(t)], which
    is also the result.  No method of the schema type calls it; its callers
    may, on a Date they handed over as a bound. *)
Definition Date_setTime (d : value) (t : number) : M T value := λ σ,
  match d with
  | VObject l =>
      match heap σ !! l with
      | Some (ODate _) =>
          (Normal (VNumber (TimeClip t)),
           State (this σ) (<[l := ODate (TimeClip t)]> (heap σ)) (clock σ))
      | _ => (Throw TypeError, σ)
      end
  | _ => (Throw TypeError, σ)
  end.

(** [x >= y] and [x <= y]: two strings are compared as strings, anything else
    as Numbers; the IEEE comparisons are false when an operand is NaN. *)
Definition compare_with (str : string → string → bool)
    (num : number → number → bool) (x y : value) : M T bool :=
  px ← ToPrimitive HNumber x;
  py ← ToPrimitive HNumber y;
  match px, py with
  | VString a, VString b => ret (str a b)
  | _, _ =>
      nx ← ToNumber px;
      ny ← ToNumber py;
      ret (num nx ny)
  end.

Definition greater_equal : value → value → M T bool :=
  compare_with (λ a b, String.leb b a) (λ a b, (b <=? a)%float).

Definition less_equal : value → value → M T bool :=
  compare_with String.leb (λ a b, (a <=? b)%float).

End Runtime.

End JS.

(** ** The schema type *)

(** An entry of the validator chain: [{validator, message, type, min}] or
    [{validator, message, type, max}]. *)
Module Entry.
Record t := Build {
  validator : JS.value;
  message : string;
  type : string;
  min : option JS.value;
  max : option JS.value
}.
End Entry.

Module SchemaDate.
Import JS.
Local Open Scope js_scope.

(** The fields of a [SchemaDate] instance that [cast], [min], [max] and
    [castForQuery] read or write. *)
Record t := Build {
  path : string;
  validators : list Entry.t;
  minValidator : value;
  maxValidator : value
}.

Definition set_validators (vs : list Entry.t) (d : t) : t :=
  Build (path d) vs (minValidator d) (maxValidator d).
Definition set_minValidator (f : value) (d : t) : t :=
  Build (path d) (validators d) f (maxValidator d).
Definition set_maxValidator (f : value) (d : t) : t :=
  Build (path d) (validators d) (minValidator d) f.

(** What the rest of the library supplies: the default messages of
    [MongooseError.messages.Date], the handlers that a lookup in
    [SchemaType.prototype.$conditionalHandlers] finds (own and inherited
    properties), each with [this] bound to the field, and
    [SchemaType.prototype._castForQuery]. *)
Class Base := {
  messages_Date_min : string;
  messages_Date_max : string;
  SchemaType_conditionalHandlers : gmap string (value → M t value);
  SchemaType_castForQuery : value → M t value
}.

(** [s.replace(/pat/, rep)] for a pattern without metacharacters and a
    replacement without [$]: the first occurrence is replaced. *)
Fixpoint string_drop (n : nat) (s : string) : string :=
  match n, s with
  | S n', String _ s' => string_drop n' s'
  | _, _ => s
  end.

Fixpoint replace (pat rep s : string) : string :=
  if String.prefix pat s then rep ++ string_drop (String.length pat) s
  else match s with
       | "" => ""
       | String c s' => String c (replace pat rep s')
       end.

(** [message || fallback] *)
Definition or_default (message : option string) (fallback : string) : string :=
  match message with
  | Some m => if String.eqb m "" then fallback else m
  | None => fallback
  end.

Section Methods.
Context `{Host} `{Base}.

(** [SchemaDate.prototype.checkRequired] *)
Definition checkRequired (value : value) : M t bool :=
  instanceof_Date value.

(** [typeof value === 'boolean'] *)
Definition is_boolean (value : value) : bool :=
  if value is VBool _ then true else false.

(** [typeof value === 'number'] *)
Definition is_number (value : value) : bool :=
  if value is VNumber _ then true else false.

(** [typeof value === 'string' && !isNaN(Number(value)) &&
     (Number(value) >= 275761 || Number(value) < -271820)] *)
Definition is_epoch_string (value : value) : bool :=
  if value is VString s then
    negb (is_nan (StringToNumber s))
    && ((275761 <=? StringToNumber s)%float || (StringToNumber s <? -271820)%float)
  else false.

(** [SchemaDate.prototype.cast] *)
Definition cast (value : value) : M t JS.value :=
  if strict_equal value VNull || strict_equal value VUndefined
     || strict_equal value (VString "")
  then ret VNull
  else
    self ← get_this;
    isDate ← instanceof_Date value;
    if isDate then
      tv ← valueOf value;
      nan ← isNaN tv;
      if nan then throw (CastError "date" value (path self))
      else ret value
    else if is_boolean value
    then throw (CastError "date" value (path self))
    else
      isNumber ← instanceof_Number value;
      date ←
        (if isNumber || is_number value then new_Date value
         else if is_epoch_string value
         then n ← ToNumber value; new_Date (VNumber n)
         else
           callable ← has_valueOf value;
           if callable then v ← valueOf value; new_Date v
           else new_Date value);
      tv ← valueOf date;
      nan ← isNaN tv;
      if negb nan then ret date
      else throw (CastError "date" value (path self)).

(** [d.toString()] on the Date that [cast] returned *)
Definition Date_prototype_toString (d : value) : M t string :=
  o ← deref d;
  match o with
  | Some (ODate tv) => ret (Date_toString tv)
  | _ => throw TypeError
  end.

(** The closure that [min] installs, applied to [val]. *)
Definition minValidator_call (value val : value) : M t JS.value :=
  min ← (if strict_equal value VDateNow
         then Date_now else cast value);
  if strict_equal val VNull then ret (VBool true)
  else
    a ← valueOf val;
    b ← valueOf min;
    r ← greater_equal a b;
    ret (VBool r).

(** The closure that [max] installs, applied to [val]. *)
Definition maxValidator_call (value val : value) : M t JS.value :=
  max ← (if strict_equal value VDateNow
         then Date_now else cast value);
  if strict_equal val VNull then ret (VBool true)
  else
    a ← valueOf val;
    b ← valueOf max;
    r ← less_equal a b;
    ret (VBool r).

(** [f(val)] for the function objects of this file. *)
Definition call (f val : value) : M t value :=
  o ← deref f;
  match o with
  | Some (OFunction FDateNow) => Date_now
  | Some (OFunction (FMinValidator value)) => minValidator_call value val
  | Some (OFunction (FMaxValidator value)) => maxValidator_call value val
  | _ => throw TypeError
  end.

(** [SchemaDate.prototype.min] *)
Definition min (value : value) (message : option string) : M t unit :=
  self ← get_this;
  (if ToBoolean (minValidator self) then
     set_this (set_validators
       (filter (λ v, strict_equal (Entry.validator v) (minValidator self) = false)
               (validators self)) self)
   else ret ());;
  if ToBoolean value then
    let msg := or_default message messages_Date_min in
    text ← (if strict_equal value VDateNow
            then ret "Date.now()"
            else d ← cast value; Date_prototype_toString d);
    let msg := replace "{MIN}" text msg in
    f ← alloc (OFunction (FMinValidator value));
    self ← get_this;
    set_this (set_validators
      (validators self ++ [Entry.Build f msg "min" (Some value) None])
      (set_minValidator f self))
  else ret ().

(** [SchemaDate.prototype.max] *)
Definition max (value : value) (message : option string) : M t unit :=
  self ← get_this;
  (if ToBoolean (maxValidator self) then
     set_this (set_validators
       (filter (λ v, strict_equal (Entry.validator v) (maxValidator self) = false)
               (validators self)) self)
   else ret ());;
  if ToBoolean value then
    let msg := or_default message messages_Date_max in
    text ← (if strict_equal value VDateNow
            then ret "Date.now()"
            else d ← cast value; Date_prototype_toString d);
    let msg := replace "{MAX}" text msg in
    f ← alloc (OFunction (FMaxValidator value));
    self ← get_this;
    set_this (set_validators
      (validators self ++ [Entry.Build f msg "max" None (Some value)])
      (set_maxValidator f self))
  else ret ().

(** [handleSingle] *)
Definition handleSingle (val : value) : M t value := cast val.

(** Modelled from the spec: [utils.options(defaults, options)] of
    [lib/utils.js], which is not among the sources.  The result holds the
    inherited default handlers, overridden by the handlers given here. *)
Definition utils_options {A} (defaults options : gmap string A) : gmap string A :=
  options ∪ defaults.

(** [SchemaDate.prototype.$conditionalHandlers] *)
Definition conditionalHandlers : gmap string (value → M t value) :=
  utils_options SchemaType_conditionalHandlers
    (<["$gt" := handleSingle]> (<["$gte" := handleSingle]>
     (<["$lt" := handleSingle]> (<["$lte" := handleSingle]> ∅)))).

(** The property key that [$conditional] denotes: no string for a Symbol. *)
Definition ToPropertyKey (v : value) : M t (option string) :=
  p ← ToPrimitive HString v;
  match p with
  | VSymbol _ => ret None
  | _ => s ← ToString p; ret (Some s)
  end.

(** ['Can\'t use ' + $conditional + ' with Date.'] *)
Definition usage_message (conditional : value) : M t string :=
  p ← ToPrimitive HDefault conditional;
  s ← ToString p;
  ret ("Can't use " ++ s ++ " with Date.").

(** [SchemaDate.prototype.castForQuery], on its [arguments] *)
Definition castForQuery (arguments : list value) : M t value :=
  match arguments with
  | [conditional; val] =>
      key ← ToPropertyKey conditional;
      match (match key with
             | Some k => conditionalHandlers !! k
             | None => None
             end) with
      | None => m ← usage_message conditional; throw (Error m)
      | Some handler => handler val
      end
  | _ => SchemaType_castForQuery (hd VUndefined arguments)
  end.

End Methods.

End SchemaDate.

(** * Notions for the properties *)

Import JS SchemaDate.
Local Open Scope js_scope.

Section Notions.
Context `{Host} `{Base}.
Implicit Types (σ : state SchemaDate.t) (v : value) (l : loc).

(** A computation that only reads: it leaves the world as it found it. *)
Definition pure {A} (m : M SchemaDate.t A) : Prop :=
  ∀ σ c σ', m σ = (c, σ') → σ' = σ.

(** The three inputs that stand for no value. *)
Definition null_like v : Prop := v = VNull ∨ v = VUndefined ∨ v = VString "".

(** A computation whose result, once it has one, is the same in every world
    with a larger heap, whatever its receiver and clock. *)
Definition stable {A} (m : M SchemaDate.t A) : Prop :=
  ∀ σ a σ' σ2, m σ = (Normal a, σ') → heap σ ⊆ heap σ2 → m σ2 = (Normal a, σ2).

(** The value that [cast] hands to the Date constructor. *)
Definition cast_argument v : M SchemaDate.t value :=
  isNumber ← instanceof_Number v;
  if isNumber || is_number v then ret v
  else if is_epoch_string v then n ← ToNumber v; ret (VNumber n)
  else
    callable ← has_valueOf v;
    if callable then valueOf v else ret v.

(** [cast] after its first test, as one sequence. *)
Definition cast_object v : M SchemaDate.t value :=
  self ← get_this;
  isDate ← instanceof_Date v;
  if isDate then
    tv ← valueOf v;
    nan ← isNaN tv;
    if nan then throw (CastError "date" v (path self)) else ret v
  else if is_boolean v
  then throw (CastError "date" v (path self))
  else
    x ← cast_argument v;
    date ← new_Date x;
    tv ← valueOf date;
    nan ← isNaN tv;
    if negb nan then ret date else throw (CastError "date" v (path self)).

(** A computation that keeps the receiver and the clock and only adds to
    the heap, whether it returns or throws. *)
Definition frame {A} (m : M SchemaDate.t A) : Prop :=
  ∀ σ, this (m σ).2 = this σ ∧ clock (m σ).2 = clock σ ∧ heap σ ⊆ heap (m σ).2.

(** The receiver once the entries that hold the closure [f] are filtered
    out of its chain; unchanged when [f] is falsy. *)
Definition removed (f : value) (d : SchemaDate.t) : SchemaDate.t :=
  if ToBoolean f
  then set_validators
         (filter (λ e, strict_equal (Entry.validator e) f = false) (validators d)) d
  else d.

(** The entries of type [ty], and how many a field has. *)
Definition of_type (ty : string) (vs : list Entry.t) : list Entry.t :=
  filter (λ e, Entry.type e = ty) vs.

Definition count_type (ty : string) (d : SchemaDate.t) : nat :=
  length (of_type ty (validators d)).

(** Every entry of type [ty] in the chain holds the closure [f]. *)
Definition tracked (ty : string) (f : value) (vs : list Entry.t) : Prop :=
  ∀ e, e ∈ vs → Entry.type e = ty → ∃ l, Entry.validator e = VObject l ∧ f = VObject l.

(** At most one entry of each bound type, held by the closure that the
    field names. *)
Definition bounds_ok (d : SchemaDate.t) : Prop :=
  (count_type "min" d ≤ 1)%nat ∧ (count_type "max" d ≤ 1)%nat
  ∧ tracked "min" (minValidator d) (validators d)
  ∧ tracked "max" (maxValidator d) (validators d).

(** A call of [min] or [max]. *)
Inductive bound_call :=
| CallMin (value : value) (message : option string)
| CallMax (value : value) (message : option string).

Definition perform (c : bound_call) : M SchemaDate.t unit :=
  match c with
  | CallMin value message => min value message
  | CallMax value message => max value message
  end.

(** The calls in order, whether they return or throw. *)
Fixpoint run_calls (cs : list bound_call) σ : state SchemaDate.t :=
  match cs with
  | [] => σ
  | c :: cs => run_calls cs (perform c σ).2
  end.


(** The world after [new Date] has stored the time value [tv]. *)
Definition with_Date (tv : number) σ : state SchemaDate.t :=
  State (this σ) (<[fresh (dom (heap σ)) := ODate tv]> (heap σ)) (clock σ).

(** The closure [f], when there is one, sits only in entries of type [ty]. *)
Definition owns (ty : string) (f : value) (vs : list Entry.t) : Prop :=
  ToBoolean f = true →
  ∀ e, e ∈ vs → strict_equal (Entry.validator e) f = true → Entry.type e = ty.

(** A value that is no reference, or a reference to an object of the heap. *)
Definition allocated (h : gmap loc object) (v : value) : Prop :=
  ∀ l, v = VObject l → is_Some (h !! l).

(** A field whose bound closures sit in bound entries only, and whose
    validators all exist. *)
Definition chain_ok σ : Prop :=
  owns "min" (minValidator (this σ)) (validators (this σ))
  ∧ owns "max" (maxValidator (this σ)) (validators (this σ))
  ∧ allocated (heap σ) (minValidator (this σ))
  ∧ allocated (heap σ) (maxValidator (this σ))
  ∧ ∀ e, e ∈ validators (this σ) → allocated (heap σ) (Entry.validator e).

(** The entries that are not of type [ty]. *)
Definition not_of_type (ty : string) (vs : list Entry.t) : list Entry.t :=
  filter (λ e, Entry.type e ≠ ty) vs.

(** The world in which [min] or [max] goes on once the closure [f] is out
    of the chain. *)
Definition without (f : value) σ : state SchemaDate.t :=
  State (removed f (this σ)) (heap σ) (clock σ).

(** How a closure over the bound [x] resolves it in the world [σ]: the
    clock for [Date.now], the time value of the Date that the cast of [x]
    returns otherwise; [σ'] is the world afterwards. *)
Definition resolves (x : value) σ (tb : number) σ' : Prop :=
  (x = VDateNow ∧ tb = clock σ ∧ σ' = σ)
  ∨ (x ≠ VDateNow
     ∧ ∃ l, cast x σ = (Normal (VObject l), σ') ∧ heap σ' !! l = Some (ODate tb)).

(** The text that stands for the bound [x] in a message. *)
Definition bound_text (x : value) σ (text : string) : Prop :=
  (x = VDateNow ∧ text = "Date.now()")
  ∨ (x ≠ VDateNow
     ∧ ∃ l tb σ', cast x σ = (Normal (VObject l), σ')
         ∧ heap σ' !! l = Some (ODate tb) ∧ text = Date_toString tb).

(** [pat] occurs in [s]; [pat] occurs in [s] from one of its first [n]
    positions. *)
Fixpoint occurs (pat s : string) : bool :=
  String.prefix pat s
  || match s with
     | "" => false
     | String _ s' => occurs pat s'
     end.

Fixpoint occurs_before (pat : string) (n : nat) (s : string) : bool :=
  match n, s with
  | S n', String _ s' => String.prefix pat s || occurs_before pat n' s'
  | _, _ => false
  end.

(** A candidate whose conversion runs built-in code only: a primitive,
    [Date.now], or a reference to a Date, to a boxed primitive or to a
    function.  An ordinary object brings methods of its own. *)
Definition built_in (h : gmap loc object) v : bool :=
  match v with
  | VObject l =>
      match h !! l with
      | Some (OOrdinary _ _) | None => false
      | Some _ => true
      end
  | _ => true
  end.

(** The world [σ] when the clock reads [now]. *)
Definition at_time (now : number) σ : state SchemaDate.t :=
  State (this σ) (heap σ) now.

End Notions.

(** * A small host, to run the model on concrete inputs *)

Module Sample.

Definition digit (c : Ascii.ascii) : option Z :=
  let n := (Z.of_nat (Ascii.nat_of_ascii c) - 48)%Z in
  if decide (0 ≤ n ≤ 9)%Z then Some n else None.

Fixpoint digits (acc : Z) (s : string) : option Z :=
  match s with
  | "" => Some acc
  | String c s' =>
      match digit c with
      | Some d => digits (10 * acc + d) s'
      | None => None
      end
  end.

(** [Number(s)] for the decimal integer literals: the rest of the numeric
    grammar is read as NaN here. *)
Definition decimal (s : string) : number :=
  match s with
  | "" => 0%float
  | String "-"%char (String c s') =>
      default nan (Z2number <$> (Z.opp <$> digits 0 (String c s')))
  | _ => default nan (Z2number <$> digits 0 s)
  end.

(** A host that reads decimal integers, knows no calendar format and prints
    every date, number and function the same way. *)
Definition host : Host := {|
  StringToNumber := decimal;
  StringToNumber_empty := eq_refl;
  Date_parse := λ _, nan;
  Date_toString := λ _, "[Date]";
  Number_toString := λ _, "[Number]";
  Function_toString := λ _, "function () { [code] }"
|}.

(** Modelled from the spec: [SchemaType.prototype._castForQuery] of
    [lib/schematype.js], which is not among the sources, for a field without
    setters.  The single-argument form casts the lone value. *)
Definition _castForQuery : value → M SchemaDate.t value :=
  @SchemaDate.cast host.

(** Modelled from the spec: the handler of [$eq] and [$ne] in
    [SchemaType.prototype.$conditionalHandlers], of [lib/schematype.js],
    which is not among the sources.  It hands its operand to the
    single-argument form of [castForQuery]. *)
Definition SchemaType_handleSingle (val : value) : M SchemaDate.t value :=
  _castForQuery val.

(** Modelled from the spec: the inherited handler of [$exists], not among
    the sources.  The existence check bypasses casting: it answers its
    operand, which has to be a boolean. *)
Definition SchemaType_exists (val : value) : M SchemaDate.t value :=
  match val with
  | VBool _ => ret val
  | _ => throw (Error "$exists parameter must be a boolean!")
  end.

(** Modelled from the spec: the inherited handler of [$type], not among
    the sources.  It bypasses casting as well and answers a number or a
    string as it is. *)
Definition SchemaType_type (val : value) : M SchemaDate.t value :=
  match val with
  | VNumber _ | VString _ => ret val
  | _ => throw (Error "$type parameter must be number or string")
  end.

(** [Object.prototype.toString], which a lookup of the key ["toString"]
    in the table finds, called on the field. *)
Definition Object_prototype_toString (val : value) : M SchemaDate.t value :=
  ret (VString "[object Object]").

(** The rest of the library: the default messages, the inherited handlers
    whose results are values of this model and the single-argument query
    cast.  The handlers of [$all], [$in] and [$nin] return arrays and the
    other members of [Object.prototype] return objects of the library; they
    have no entry here, and no property below is run on them. *)
Definition base : SchemaDate.Base := {|
  SchemaDate.messages_Date_min :=
    "Path `{PATH}` ({VALUE}) is before minimum allowed value ({MIN}).";
  SchemaDate.messages_Date_max :=
    "Path `{PATH}` ({VALUE}) is after maximum allowed value ({MAX}).";
  SchemaDate.SchemaType_conditionalHandlers :=
    <["$eq" := SchemaType_handleSingle]>
    (<["$ne" := SchemaType_handleSingle]>
    (<["$exists" := SchemaType_exists]>
    (<["$type" := SchemaType_type]>
    (<["toString" := Object_prototype_toString]> ∅))));
  SchemaDate.SchemaType_castForQuery := _castForQuery
|}.

(** A field [d] with an empty validator chain, an empty heap and the clock
    at one second past the epoch. *)
Definition field : SchemaDate.t :=
  SchemaDate.Build "d" [] VUndefined VUndefined.

Definition start : state SchemaDate.t := State field ∅ 1000%float.

(** A world with a Date, a boxed Boolean and two closures over [Date.now]
    in its heap. *)
Definition objects : gmap loc object :=
  <[2%positive := ODate 5000%float]>
  (<[3%positive := OBoolean true]>
  (<[4%positive := OFunction (FMinValidator VDateNow)]>
  (<[5%positive := OFunction (FMaxValidator VDateNow)]> ∅))).

Definition early : state SchemaDate.t := State field objects 1000%float.
Definition late : state SchemaDate.t := State field objects 9000%float.

(** Bounds set, replaced and removed. *)
Definition calls : list bound_call :=
  [ CallMin (VNumber 86400000%float) None;
    CallMax VDateNow None;
    CallMin (VString "1000000") (Some "{PATH} is before {MIN}");
    CallMax (VString "never") None;
    CallMax VNull None ].

End Sample.

(** * More inputs, and a host that reads years *)

Module Cases.

(** Days from the first of January 1970 to the first of January of the
    year [y], in the proleptic Gregorian calendar. *)
Definition days_to_year (y : Z) : Z :=
  let leaps (n : Z) := (n / 4 - n / 100 + n / 400)%Z in
  (365 * (y - 1970) + (leaps (y - 1) - leaps 1969))%Z.

(** [Date.parse] for the year-only form of the date-time string format,
    four digits, read in UTC; every other text is NaN here. *)
Definition parse_year (s : string) : number :=
  if Nat.eqb (String.length s) 4 then
    match Sample.digits 0 s with
    | Some y => Z2number (days_to_year y * 86400000)
    | None => nan
    end
  else nan.

Definition host : Host := {|
  StringToNumber := Sample.decimal;
  StringToNumber_empty := eq_refl;
  Date_parse := parse_year;
  Date_toString := λ _, "[Date]";
  Number_toString := λ _, "[Number]";
  Function_toString := λ _, "function () { [code] }"
|}.

(** A heap with an invalid and a valid Date, the boxed primitives, a
    moment-like object, an object whose [valueOf] returns a Date, an object
    without [valueOf] and [toString], one with [toString] only, the
    closures of a literal bound and a user validator. *)
Definition objects : gmap loc object :=
  list_to_map
    [ (1%positive, ODate nan);
      (2%positive, ODate 5000%float);
      (3%positive, ONumber 86400000%float);
      (4%positive, OString "2020");
      (5%positive, OOrdinary (Some (VNumber 1000%float)) None);
      (6%positive, OOrdinary (Some (VObject 2%positive)) None);
      (7%positive, OOrdinary None None);
      (8%positive, OOrdinary None (Some (VString "2020")));
      (9%positive, OFunction (FMinValidator (VNumber 5000%float)));
      (10%positive, OFunction (FMaxValidator (VNumber 5000%float)));
      (11%positive, OOrdinary (Some (VObject 11%positive)) None) ].

(** A field with one validator of another kind. *)
Definition required : Entry.t :=
  Entry.Build (VObject 11%positive) "Path `{PATH}` is required." "required"
    None None.

Definition field : SchemaDate.t :=
  SchemaDate.Build "d" [required] VUndefined VUndefined.

Definition world : state SchemaDate.t := State field objects 1000%float.

End Cases.

(** * Properties *)

Ltac run := unfold bind, ret, throw, get_this, set_this in *; simpl in *.

Section Properties.
Context `{Host} `{Base}.
Implicit Types (σ : state SchemaDate.t) (v : value) (l : loc).

(** ** Sequencing *)

Lemma bind_normal {A B} (m : M SchemaDate.t A) (k : A → M SchemaDate.t B) σ b σ' :
  (x ← m; k x) σ = (Normal b, σ') →
  ∃ a σ1, m σ = (Normal a, σ1) ∧ k a σ1 = (Normal b, σ').
Proof. unfold bind. destruct (m σ) as [[a|e] σ1]; [eauto|done]. Qed.

Lemma bind_run {A B} (m : M SchemaDate.t A) (k : A → M SchemaDate.t B) σ a σ1 :
  m σ = (Normal a, σ1) → (x ← m; k x) σ = k a σ1.
Proof. unfold bind. by intros ->. Qed.

Lemma bind_throw {A B} (m : M SchemaDate.t A) (k : A → M SchemaDate.t B) σ e σ' :
  m σ = (Throw e, σ') → (x ← m; k x) σ = (Throw e, σ').
Proof. unfold bind. by intros ->. Qed.

Lemma bind_assoc {A B C} (m : M SchemaDate.t A) (k : A → M SchemaDate.t B)
    (k' : B → M SchemaDate.t C) σ :
  (y ← (x ← m; k x); k' y) σ = (x ← m; y ← k x; k' y) σ.
Proof. unfold bind. by destruct (m σ) as [[]]. Qed.

Lemma bind_get_this {B} (k : SchemaDate.t → M SchemaDate.t B) σ :
  (x ← get_this; k x) σ = k (this σ) σ.
Proof. reflexivity. Qed.

Lemma bind_ext {A B} (m : M SchemaDate.t A) (k k' : A → M SchemaDate.t B) σ :
  (∀ a σ1, k a σ1 = k' a σ1) → (x ← m; k x) σ = (x ← m; k' x) σ.
Proof. intros E. unfold bind. destruct (m σ) as [[]]; by rewrite ?E. Qed.

(** ** Reading the heap leaves the world as it was *)

Lemma pure_bind {A B} (m : M SchemaDate.t A) (k : A → M SchemaDate.t B) :
  pure m → (∀ a, pure (k a)) → pure (x ← m; k x).
Proof.
  intros Hm Hk σ c σ'. unfold bind. destruct (m σ) as [[a|e] σ1] eqn:E.
  - intros E'. apply Hk in E'. apply Hm in E. congruence.
  - intros [= <- <-]. by apply Hm in E.
Qed.

Lemma pure_ret {A} (a : A) : pure (ret a).
Proof. by intros σ c σ' [= _ <-]. Qed.

Lemma pure_throw {A} e : pure (@throw _ A e).
Proof. by intros σ c σ' [= _ <-]. Qed.

Lemma pure_deref v : pure (deref v).
Proof. intros σ c σ'. unfold deref. repeat case_match; naive_solver. Qed.

Lemma pure_get_this : pure get_this.
Proof. by intros σ c σ' [= _ <-]. Qed.

Create HintDb pure discriminated.
#[local] Hint Resolve pure_ret pure_throw pure_deref pure_get_this : pure.

Ltac pure_tac :=
  repeat first
    [ solve [auto 1 with pure nocore]
    | apply pure_bind; [|intros ?]
    | progress case_match ].

Lemma pure_first_primitive a b : pure (first_primitive a b).
Proof. unfold first_primitive. pure_tac. Qed.
#[local] Hint Resolve pure_first_primitive : pure.

Lemma pure_ToPrimitive h v : pure (ToPrimitive h v).
Proof. unfold ToPrimitive. pure_tac. Qed.
#[local] Hint Resolve pure_ToPrimitive : pure.

Lemma pure_ToNumber v : pure (ToNumber v).
Proof. unfold ToNumber. pure_tac. Qed.
#[local] Hint Resolve pure_ToNumber : pure.

Lemma pure_valueOf v : pure (valueOf v).
Proof. unfold valueOf. pure_tac. Qed.

Lemma pure_isNaN v : pure (isNaN v).
Proof. unfold isNaN. pure_tac. Qed.

Lemma pure_instanceof_Date v : pure (instanceof_Date v).
Proof. unfold instanceof_Date. pure_tac. Qed.

Lemma pure_instanceof_Number v : pure (instanceof_Number v).
Proof. unfold instanceof_Number. pure_tac. Qed.

Lemma pure_has_valueOf v : pure (has_valueOf v).
Proof. unfold has_valueOf. pure_tac. Qed.

Lemma pure_Date_time v : pure (Date_time v).
Proof. unfold Date_time. pure_tac. Qed.
#[local] Hint Resolve pure_valueOf pure_isNaN pure_instanceof_Date
  pure_instanceof_Number pure_has_valueOf pure_Date_time : pure.

(** ** Reads survive the growth of the heap *)

Lemma stable_use {A} (m : M SchemaDate.t A) σ a σ' σ2 :
  stable m → m σ = (Normal a, σ') → heap σ ⊆ heap σ2 → m σ2 = (Normal a, σ2).
Proof. intros S. apply S. Qed.

Lemma stable_ret {A} (a : A) : stable (ret a).
Proof. by intros σ b σ' σ2 [= <- _] _. Qed.

Lemma stable_throw {A} e : stable (@throw _ A e).
Proof. by intros σ b σ' σ2. Qed.

Lemma stable_deref v : stable (deref v).
Proof.
  intros σ a σ' σ2 E Hsub. unfold deref in *. destruct v; try by simplify_eq.
  destruct (heap σ !! l) eqn:El; [|done].
  rewrite (lookup_weaken _ _ _ _ El Hsub). by simplify_eq.
Qed.

Lemma stable_bind {A B} (m : M SchemaDate.t A) (k : A → M SchemaDate.t B) :
  pure m → stable m → (∀ a, stable (k a)) → stable (x ← m; k x).
Proof.
  intros Pm Sm Sk σ b σ' σ2 E Hsub.
  apply bind_normal in E as (a & σ1 & E1 & E2).
  pose proof (Pm _ _ _ E1) as ->.
  rewrite (bind_run _ _ _ _ _ (Sm _ _ _ _ E1 Hsub)). eapply Sk; eauto.
Qed.

Create HintDb stable discriminated.
#[local] Hint Resolve stable_ret stable_throw stable_deref : stable.

Ltac stable_tac :=
  repeat first
    [ solve [auto 1 with stable nocore]
    | apply stable_bind; [solve [auto with pure nocore]| |intros ?]
    | progress case_match ].

Lemma stable_first_primitive a b : stable (first_primitive a b).
Proof. unfold first_primitive. stable_tac. Qed.
#[local] Hint Resolve stable_first_primitive : stable.

Lemma stable_ToPrimitive h v : stable (ToPrimitive h v).
Proof. unfold ToPrimitive. stable_tac. Qed.
#[local] Hint Resolve stable_ToPrimitive : stable.

Lemma stable_ToNumber v : stable (ToNumber v).
Proof. unfold ToNumber. stable_tac. Qed.
#[local] Hint Resolve stable_ToNumber : stable.

Lemma stable_valueOf v : stable (valueOf v).
Proof. unfold valueOf. stable_tac. Qed.

Lemma stable_isNaN v : stable (isNaN v).
Proof. unfold isNaN. stable_tac. Qed.

Lemma stable_instanceof_Date v : stable (instanceof_Date v).
Proof. unfold instanceof_Date. stable_tac. Qed.

Lemma stable_instanceof_Number v : stable (instanceof_Number v).
Proof. unfold instanceof_Number. stable_tac. Qed.

Lemma stable_has_valueOf v : stable (has_valueOf v).
Proof. unfold has_valueOf. stable_tac. Qed.

Lemma stable_Date_time v : stable (Date_time v).
Proof. unfold Date_time. stable_tac. Qed.
#[local] Hint Resolve stable_valueOf stable_isNaN stable_instanceof_Date
  stable_instanceof_Number stable_has_valueOf stable_Date_time : stable.

Lemma pure_cast_argument v : pure (cast_argument v).
Proof. unfold cast_argument. pure_tac. Qed.

Lemma stable_cast_argument v : stable (cast_argument v).
Proof. unfold cast_argument. stable_tac. Qed.
#[local] Hint Resolve pure_cast_argument : pure.
#[local] Hint Resolve stable_cast_argument : stable.

(** ** The shape of [cast] *)

Lemma cast_construct {A} v (k : value → M SchemaDate.t A) σ :
  (isNumber ← instanceof_Number v;
   date ←
     (if isNumber || is_number v then new_Date v
      else if is_epoch_string v
      then n ← ToNumber v; new_Date (VNumber n)
      else
        callable ← has_valueOf v;
        if callable then x ← valueOf v; new_Date x
        else new_Date v);
   k date) σ
  = (x ← cast_argument v; date ← new_Date x; k date) σ.
Proof.
  unfold cast_argument. rewrite bind_assoc. apply bind_ext. intros b σ1.
  destruct (b || is_number v); [done|].
  destruct (is_epoch_string v).
  { rewrite !bind_assoc. by apply bind_ext. }
  rewrite !bind_assoc. apply bind_ext. intros c σ2.
  destruct c; [|done]. by rewrite bind_assoc.
Qed.

Lemma alloc_run o σ :
  alloc o σ =
    (Normal (VObject (fresh (dom (heap σ)))),
     State (this σ) (<[fresh (dom (heap σ)) := o]> (heap σ)) (clock σ)).
Proof. reflexivity. Qed.

Lemma alloc_fresh σ : heap σ !! fresh (dom (heap σ)) = None.
Proof. apply not_elem_of_dom, is_fresh. Qed.

Lemma null_like_test v :
  strict_equal v VNull || strict_equal v VUndefined
    || strict_equal v (VString "") = true ↔ null_like v.
Proof.
  unfold null_like. destruct v as [| | | | [|]| | |]; simpl;
    (split; [try discriminate; auto | intros [?|[?|?]]; congruence]).
Qed.

Lemma instanceof_Date_true v σ σ' :
  instanceof_Date v σ = (Normal true, σ') →
  ∃ l tv, v = VObject l ∧ heap σ !! l = Some (ODate tv).
Proof.
  unfold instanceof_Date, deref, bind, ret. destruct v; try done.
  destruct (heap σ !! l) as [[]|] eqn:E; try done. intros _. eauto.
Qed.

Lemma valueOf_Date σ l tv :
  heap σ !! l = Some (ODate tv) → valueOf (VObject l) σ = (Normal (VNumber tv), σ).
Proof. intros E. unfold valueOf, deref, bind. by rewrite E. Qed.

Lemma cast_unfold v σ :
  cast v σ =
    if strict_equal v VNull || strict_equal v VUndefined || strict_equal v (VString "")
    then (Normal VNull, σ) else cast_object v σ.
Proof.
  unfold cast. destruct (_ || _); [done|].
  unfold cast_object. apply bind_ext. intros self σ1. apply bind_ext.
  intros isDate σ2. destruct isDate; [done|].
  destruct (is_boolean v); [done|].
  apply cast_construct.
Qed.

Ltac step H :=
  let a := fresh "a" in
  let σ1 := fresh "σ" in
  let E := fresh "E" in
  apply bind_normal in H as (a & σ1 & E & H);
  match type of E with
  | ?m _ = _ =>
      let P := fresh in
      assert (pure m) as P by auto with pure nocore;
      apply P in E as ?; subst σ1; clear P
  end.

Lemma cast_object_normal v σ r σ' :
  cast_object v σ = (Normal r, σ') →
  (∃ l tv, v = VObject l ∧ heap σ !! l = Some (ODate tv) ∧ is_nan tv = false
     ∧ r = v ∧ σ' = σ)
  ∨ (instanceof_Date v σ = (Normal false, σ) ∧ (∀ b, v ≠ VBool b)
     ∧ ∃ x tv, cast_argument v σ = (Normal x, σ)
       ∧ Date_time x σ = (Normal tv, σ)
       ∧ is_nan (TimeClip tv) = false
       ∧ r = VObject (fresh (dom (heap σ)))
       ∧ σ' = State (this σ)
                (<[fresh (dom (heap σ)) := ODate (TimeClip tv)]> (heap σ))
                (clock σ)).
Proof.
  unfold cast_object. intros E. step E. injection E0 as <-.
  step E. destruct a.
  - left. apply instanceof_Date_true in E0 as (l & tv & -> & El).
    rewrite (bind_run _ _ _ _ _ (valueOf_Date _ _ _ El)) in E.
    unfold isNaN, ToNumber, bind, ret, throw in E. simpl in E.
    destruct (is_nan tv) eqn:N; [done|]. injection E as <- <-. eauto 10.
  - right. split; [done|]. destruct (is_boolean v) eqn:B; [done|].
    split; [by intros b ->|].
    step E. apply bind_normal in E as (date & σ1 & E2 & E).
    apply bind_normal in E2 as (tv & σ2 & E2 & E3).
    pose proof (pure_Date_time _ _ _ _ E2) as ->.
    rewrite alloc_run in E3. injection E3 as <- <-.
    unfold valueOf, deref, bind in E. simpl in E.
    rewrite lookup_insert_eq in E. simpl in E.
    destruct (is_nan (TimeClip tv)) eqn:N; [done|]. injection E as <- <-.
    eauto 10.
Qed.

Lemma cast_object_Date_run σ l tv :
  heap σ !! l = Some (ODate tv) → is_nan tv = false →
  cast_object (VObject l) σ = (Normal (VObject l), σ).
Proof.
  intros El N. unfold cast_object, instanceof_Date, valueOf, isNaN, deref. run.
  rewrite !El. simpl. by rewrite N.
Qed.

Lemma cast_object_construct v σ x tv :
  instanceof_Date v σ = (Normal false, σ) → (∀ b, v ≠ VBool b) →
  cast_argument v σ = (Normal x, σ) →
  Date_time x σ = (Normal tv, σ) →
  cast_object v σ =
    (if is_nan (TimeClip tv)
     then Throw (CastError "date" v (path (this σ)))
     else Normal (VObject (fresh (dom (heap σ)))),
     State (this σ) (<[fresh (dom (heap σ)) := ODate (TimeClip tv)]> (heap σ))
       (clock σ)).
Proof.
  intros ED NB EA ET. unfold cast_object.
  rewrite bind_get_this. rewrite (bind_run _ _ _ _ _ ED).
  destruct (is_boolean v) eqn:B; [destruct v; naive_solver|].
  rewrite (bind_run _ _ _ _ _ EA). unfold new_Date.
  rewrite bind_assoc, (bind_run _ _ _ _ _ ET).
  unfold bind at 1. rewrite alloc_run.
  unfold valueOf, deref, bind, isNaN, ToNumber. simpl.
  rewrite lookup_insert_eq. simpl. by destruct (is_nan (TimeClip tv)).
Qed.

Lemma cast_object_construct_run v σ x tv :
  instanceof_Date v σ = (Normal false, σ) → (∀ b, v ≠ VBool b) →
  cast_argument v σ = (Normal x, σ) →
  Date_time x σ = (Normal tv, σ) →
  is_nan (TimeClip tv) = false →
  cast_object v σ =
    (Normal (VObject (fresh (dom (heap σ)))),
     State (this σ) (<[fresh (dom (heap σ)) := ODate (TimeClip tv)]> (heap σ))
       (clock σ)).
Proof.
  intros ED NB EA ET N. rewrite (cast_object_construct _ _ x tv); try done.
  by rewrite N.
Qed.

(** What [cast] returns is [null], for the three empty inputs only, or a
    Date whose time value is a number; the heap only grows. *)
Lemma cast_normal v σ r σ' :
  cast v σ = (Normal r, σ') →
  (null_like v ∧ r = VNull ∧ σ' = σ)
  ∨ (¬ null_like v ∧ ∃ l tv, r = VObject l ∧ heap σ' !! l = Some (ODate tv)
      ∧ is_nan tv = false ∧ heap σ ⊆ heap σ'
      ∧ this σ' = this σ ∧ clock σ' = clock σ).
Proof.
  rewrite cast_unfold. destruct (_ || _) eqn:N.
  { apply null_like_test in N. intros [= <- <-]. by left. }
  intros E. right. split. { rewrite <-null_like_test. by rewrite N. }
  apply cast_object_normal in E
    as [(l & tv & -> & El & Hn & -> & ->)|(_ & _ & x & tv & _ & _ & Hn & -> & ->)].
  - eauto 10.
  - eexists _, _. split; [done|]. simpl. rewrite lookup_insert_eq.
    split; [done|]. split; [done|]. split; [|done].
    apply insert_subseteq, alloc_fresh.
Qed.

(** A cast that succeeded succeeds again in every larger heap. *)
Lemma cast_extends v σ r σ' σ2 :
  cast v σ = (Normal r, σ') → heap σ ⊆ heap σ2 →
  ∃ r' σ2', cast v σ2 = (Normal r', σ2').
Proof.
  rewrite !cast_unfold. destruct (_ || _); [eauto|].
  intros E Hsub. apply cast_object_normal in E
    as [(l & tv & -> & El & Hn & -> & ->)|(ED & NB & x & tv & EA & ET & Hn & -> & ->)].
  - eexists _, _. apply (cast_object_Date_run _ _ tv); [|done].
    by eapply lookup_weaken.
  - eexists _, _. apply (cast_object_construct_run _ _ x tv); try done.
    all: eapply stable_use; [auto with stable nocore|eassumption|eassumption].
Qed.

(** ** What a computation leaves in place *)

Lemma frame_pure {A} (m : M SchemaDate.t A) : pure m → frame m.
Proof.
  intros P σ. destruct (m σ) as [c σ'] eqn:E. apply P in E as ->. done.
Qed.

Lemma frame_bind {A B} (m : M SchemaDate.t A) (k : A → M SchemaDate.t B) :
  frame m → (∀ a, frame (k a)) → frame (x ← m; k x).
Proof.
  intros Fm Fk σ. unfold bind. specialize (Fm σ).
  destruct (m σ) as [[a|e] σ1]; simpl in *; [|done].
  destruct (Fk a σ1) as (-> & -> & ?). destruct Fm as (-> & -> & ?).
  split; [done|]. split; [done|]. by etrans.
Qed.

Lemma frame_alloc o : frame (alloc o).
Proof.
  intros σ. rewrite alloc_run. simpl. split; [done|]. split; [done|].
  apply insert_subseteq, alloc_fresh.
Qed.

Lemma frame_new_Date v : frame (new_Date v).
Proof.
  apply frame_bind; [apply frame_pure; auto with pure nocore|].
  intros. apply frame_alloc.
Qed.

Ltac frame_tac :=
  repeat first
    [ solve [apply frame_pure; auto with pure nocore]
    | apply frame_new_Date
    | apply frame_bind; [|intros ?]
    | progress case_match ].

Lemma frame_cast v : frame (cast v).
Proof. unfold cast. frame_tac. Qed.

(** ** The outcomes of [min] and [max] *)

Lemma strict_equal_DateNow x : strict_equal x VDateNow = true → x = VDateNow.
Proof. by destruct x. Qed.

Lemma pure_Date_prototype_toString v : pure (Date_prototype_toString v).
Proof. unfold Date_prototype_toString. pure_tac. Qed.

Lemma min_outcome x m σ c σ' :
  min x m σ = (c, σ') →
  let d1 := removed (minValidator (this σ)) (this σ) in
  if ToBoolean x then
    (∃ e, c = Throw e ∧ this σ' = d1 ∧ heap σ ⊆ heap σ')
    ∨ (c = Normal () ∧ ∃ h msg,
         σ' = State
                (set_validators
                   (validators d1
                    ++ [Entry.Build (VObject (fresh (dom h))) msg "min" (Some x) None])
                   (set_minValidator (VObject (fresh (dom h))) d1))
                (<[fresh (dom h) := OFunction (FMinValidator x)]> h) (clock σ)
         ∧ heap σ ⊆ h
         ∧ (x = VDateNow
            ∨ ∃ r, cast x (State d1 (heap σ) (clock σ))
                   = (Normal r, State d1 h (clock σ))))
  else c = Normal () ∧ σ' = State d1 (heap σ) (clock σ).
Proof.
  destruct σ as [d h ck]. unfold min. rewrite bind_get_this. simpl.
  set (d1 := removed (minValidator d) d).
  assert (∀ {A} (k : M SchemaDate.t A),
    ((if ToBoolean (minValidator d)
      then set_this (set_validators
             (filter (λ e, strict_equal (Entry.validator e) (minValidator d) = false)
                (validators d)) d)
      else ret ());; k) (State d h ck) = k (State d1 h ck)) as ->.
  { intros A k. unfold d1, removed, bind. by destruct (ToBoolean _). }
  destruct (ToBoolean x); [|by intros [= <- <-]].
  destruct (strict_equal x VDateNow) eqn:DN.
  { apply strict_equal_DateNow in DN as ->. intros [= <- <-].
    right. split; [done|]. eexists h, _. eauto. }
  unfold bind at 1 2.
  pose proof (frame_cast x (State d1 h ck)) as FC.
  destruct (cast x (State d1 h ck)) as [[r|e] [d2 h2 ck2]] eqn:EC;
    simpl in FC; destruct FC as (-> & -> & Hsub).
  2:{ intros [= <- <-]. left. eauto. }
  destruct (Date_prototype_toString r (State d1 h2 ck)) as [[text|e] σ3] eqn:ET;
    apply pure_Date_prototype_toString in ET as ->.
  2:{ intros [= <- <-]. left. eauto. }
  intros [= <- <-]. right. split; [done|]. eexists h2, _. eauto 10.
Qed.

Lemma max_outcome x m σ c σ' :
  max x m σ = (c, σ') →
  let d1 := removed (maxValidator (this σ)) (this σ) in
  if ToBoolean x then
    (∃ e, c = Throw e ∧ this σ' = d1 ∧ heap σ ⊆ heap σ')
    ∨ (c = Normal () ∧ ∃ h msg,
         σ' = State
                (set_validators
                   (validators d1
                    ++ [Entry.Build (VObject (fresh (dom h))) msg "max" None (Some x)])
                   (set_maxValidator (VObject (fresh (dom h))) d1))
                (<[fresh (dom h) := OFunction (FMaxValidator x)]> h) (clock σ)
         ∧ heap σ ⊆ h
         ∧ (x = VDateNow
            ∨ ∃ r, cast x (State d1 (heap σ) (clock σ))
                   = (Normal r, State d1 h (clock σ))))
  else c = Normal () ∧ σ' = State d1 (heap σ) (clock σ).
Proof.
  destruct σ as [d h ck]. unfold max. rewrite bind_get_this. simpl.
  set (d1 := removed (maxValidator d) d).
  assert (∀ {A} (k : M SchemaDate.t A),
    ((if ToBoolean (maxValidator d)
      then set_this (set_validators
             (filter (λ e, strict_equal (Entry.validator e) (maxValidator d) = false)
                (validators d)) d)
      else ret ());; k) (State d h ck) = k (State d1 h ck)) as ->.
  { intros A k. unfold d1, removed, bind. by destruct (ToBoolean _). }
  destruct (ToBoolean x); [|by intros [= <- <-]].
  destruct (strict_equal x VDateNow) eqn:DN.
  { apply strict_equal_DateNow in DN as ->. intros [= <- <-].
    right. split; [done|]. eexists h, _. eauto. }
  unfold bind at 1 2.
  pose proof (frame_cast x (State d1 h ck)) as FC.
  destruct (cast x (State d1 h ck)) as [[r|e] [d2 h2 ck2]] eqn:EC;
    simpl in FC; destruct FC as (-> & -> & Hsub).
  2:{ intros [= <- <-]. left. eauto. }
  destruct (Date_prototype_toString r (State d1 h2 ck)) as [[text|e] σ3] eqn:ET;
    apply pure_Date_prototype_toString in ET as ->.
  2:{ intros [= <- <-]. left. eauto. }
  intros [= <- <-]. right. split; [done|]. eexists h2, _. eauto 10.
Qed.

(** ** The bound entries of the chain *)

Lemma of_type_nil ty vs : (∀ e, e ∈ vs → Entry.type e ≠ ty) → of_type ty vs = [].
Proof.
  intros Hn. unfold of_type. induction vs as [|e vs IH]; [done|].
  rewrite filter_cons. destruct (decide _) as [E|_].
  - destruct (Hn e); [left|done].
  - apply IH. intros e' ?. apply Hn. by right.
Qed.

Lemma removed_validators f d :
  validators (removed f d) `sublist_of` validators d.
Proof. unfold removed. destruct (ToBoolean f); [apply sublist_filter|done]. Qed.

Lemma removed_fields f d :
  path (removed f d) = path d ∧ minValidator (removed f d) = minValidator d
  ∧ maxValidator (removed f d) = maxValidator d.
Proof. unfold removed. by destruct (ToBoolean f). Qed.

Lemma removed_no_type ty f d e :
  tracked ty f (validators d) → e ∈ validators (removed f d) → Entry.type e ≠ ty.
Proof.
  intros Tr He Ty. unfold removed in He. destruct (ToBoolean f) eqn:TB.
  - simpl in He. apply list_elem_of_filter in He as [Hne He].
    destruct (Tr e He Ty) as (l & Ev & ->). rewrite Ev in Hne. simpl in Hne.
    by rewrite Pos.eqb_refl in Hne.
  - destruct (Tr e He Ty) as (l & _ & ->). done.
Qed.

Lemma of_type_sublist ty vs vs' :
  vs `sublist_of` vs' → (length (of_type ty vs) ≤ length (of_type ty vs'))%nat.
Proof.
  intros S. apply sublist_length. unfold of_type.
  induction S as [|e vs vs' S IH|e vs vs' S IH]; [done| |];
    rewrite !filter_cons; destruct (decide _);
    [by apply sublist_skip|done|by apply sublist_cons|done].
Qed.

Lemma tracked_sublist ty f vs vs' :
  vs `sublist_of` vs' → tracked ty f vs' → tracked ty f vs.
Proof. intros S Tr e He. apply Tr. by apply (sublist_subseteq _ _ S). Qed.

Lemma removed_min_ok d :
  bounds_ok d →
  of_type "min" (validators (removed (minValidator d) d)) = []
  ∧ bounds_ok (removed (minValidator d) d).
Proof.
  intros (Cmin & Cmax & Tmin & Tmax).
  pose proof (removed_validators (minValidator d) d) as S.
  destruct (removed_fields (minValidator d) d) as (_ & Emin & Emax).
  assert (of_type "min" (validators (removed (minValidator d) d)) = []) as E0.
  { apply of_type_nil. intros e. by apply removed_no_type. }
  split; [done|]. unfold bounds_ok, count_type. rewrite E0, Emin, Emax.
  split; [simpl; lia|]. split.
  { etrans; [by apply of_type_sublist|done]. }
  split; by eapply tracked_sublist.
Qed.

Lemma removed_max_ok d :
  bounds_ok d →
  of_type "max" (validators (removed (maxValidator d) d)) = []
  ∧ bounds_ok (removed (maxValidator d) d).
Proof.
  intros (Cmin & Cmax & Tmin & Tmax).
  pose proof (removed_validators (maxValidator d) d) as S.
  destruct (removed_fields (maxValidator d) d) as (_ & Emin & Emax).
  assert (of_type "max" (validators (removed (maxValidator d) d)) = []) as E0.
  { apply of_type_nil. intros e. by apply removed_no_type. }
  split; [done|]. unfold bounds_ok, count_type. rewrite E0, Emin, Emax.
  split. { etrans; [by apply of_type_sublist|done]. }
  split; [simpl; lia|]. split; by eapply tracked_sublist.
Qed.

Lemma tracked_push ty ty' f f' e vs :
  tracked ty f vs → Entry.type e = ty' →
  (ty = ty' → ∃ l, Entry.validator e = VObject l ∧ f' = VObject l) →
  (ty = ty' → of_type ty vs = []) → (ty ≠ ty' → f' = f) →
  tracked ty f' (vs ++ [e]).
Proof.
  intros Tr Te New Nil Same e' He Ty.
  apply elem_of_app in He as [He|He%list_elem_of_singleton].
  - destruct (decide (ty = ty')) as [E|E].
    + exfalso. assert (e' ∈ of_type ty vs) as Hin by by apply list_elem_of_filter.
      rewrite (Nil E) in Hin. by apply elem_of_nil in Hin.
    + rewrite (Same E). by apply Tr.
  - subst e'. apply New. congruence.
Qed.

Lemma of_type_push ty e vs :
  of_type ty (vs ++ [e]) = (of_type ty vs ++ if decide (Entry.type e = ty) then [e] else [])%list.
Proof. unfold of_type. rewrite filter_app, filter_cons, filter_nil. by destruct (decide _). Qed.

Lemma min_preserves x m σ : bounds_ok (this σ) → bounds_ok (this (min x m σ).2).
Proof.
  intros Ok. destruct (min x m σ) as [c σ'] eqn:E. apply min_outcome in E.
  destruct (removed_min_ok _ Ok) as (Nil & Ok').
  simpl in *. destruct (ToBoolean x).
  - destruct E as [(e & _ & -> & _)|(_ & h & msg & -> & _)]; [done|].
    destruct Ok' as (Cmin & Cmax & Tmin & Tmax). simpl.
    unfold bounds_ok, count_type in *. simpl. rewrite !of_type_push. simpl.
    rewrite Nil, app_nil_r. split; [simpl; lia|]. split; [done|].
    split; (eapply tracked_push; [eassumption|reflexivity|simpl..]);
      first [done | eauto].
  - by destruct E as (_ & ->).
Qed.

Lemma max_preserves x m σ : bounds_ok (this σ) → bounds_ok (this (max x m σ).2).
Proof.
  intros Ok. destruct (max x m σ) as [c σ'] eqn:E. apply max_outcome in E.
  destruct (removed_max_ok _ Ok) as (Nil & Ok').
  simpl in *. destruct (ToBoolean x).
  - destruct E as [(e & _ & -> & _)|(_ & h & msg & -> & _)]; [done|].
    destruct Ok' as (Cmin & Cmax & Tmin & Tmax). simpl.
    unfold bounds_ok, count_type in *. simpl. rewrite !of_type_push. simpl.
    rewrite Nil, app_nil_r. split; [done|]. split; [simpl; lia|].
    split; (eapply tracked_push; [eassumption|reflexivity|simpl..]);
      first [done | eauto].
  - by destruct E as (_ & ->).
Qed.

Lemma run_calls_preserves cs σ : bounds_ok (this σ) → bounds_ok (this (run_calls cs σ)).
Proof.
  revert σ. induction cs as [|c cs IH]; intros σ Ok; [done|].
  simpl. apply IH. destruct c; [by apply min_preserves|by apply max_preserves].
Qed.

(** ** The installed closures *)

Lemma call_closure σ f fn val :
  heap σ !! f = Some (OFunction fn) →
  call (VObject f) val σ =
    match fn with
    | FDateNow => Date_now σ
    | FMinValidator x => minValidator_call x val σ
    | FMaxValidator x => maxValidator_call x val σ
    end.
Proof. intros E. unfold call, deref, bind. rewrite E. by destruct fn. Qed.

Lemma truthy_not_null_like x : ToBoolean x = true → ¬ null_like x.
Proof. by intros T [->|[->| ->]]. Qed.

(** The bound of an evaluation that casts a literal. *)
Lemma cast_bound x σ r σ' :
  ToBoolean x = true → cast x σ = (Normal r, σ') →
  ∃ lr tb, r = VObject lr ∧ heap σ' !! lr = Some (ODate tb) ∧ heap σ ⊆ heap σ'.
Proof.
  intros T E. apply cast_normal in E as [(N & _)|(_ & lr & tb & -> & ? & _ & ? & _)].
  - by apply truthy_not_null_like in T.
  - eauto.
Qed.

(** A bound that was installed resolves again in every larger heap. *)
Lemma min_installed x m σ σ1 :
  min x m σ = (Normal (), σ1) → ToBoolean x = true →
  ∃ f, minValidator (this σ1) = VObject f
    ∧ heap σ1 !! f = Some (OFunction (FMinValidator x))
    ∧ (x = VDateNow
       ∨ strict_equal x VDateNow = false
         ∧ ∀ σ2, heap σ1 ⊆ heap σ2 → ∃ r σ3, cast x σ2 = (Normal r, σ3)).
Proof.
  intros E T. apply min_outcome in E. rewrite T in E.
  destruct E as [(e & ? & _)|(_ & h & msg & -> & Hsub & Hx)]; [done|].
  exists (fresh (dom h)). simpl. rewrite lookup_insert_eq.
  split; [done|]. split; [done|].
  destruct (strict_equal x VDateNow) eqn:DN;
    [left; by apply strict_equal_DateNow|right; split; [done|]].
  destruct Hx as [->|(r & EC)]; [done|]. intros σ2 Hsub2.
  eapply cast_extends; [exact EC|]. simpl.
  etrans; [exact Hsub|]. etrans; [|exact Hsub2].
  apply insert_subseteq, not_elem_of_dom, is_fresh.
Qed.

Lemma max_installed x m σ σ1 :
  max x m σ = (Normal (), σ1) → ToBoolean x = true →
  ∃ f, maxValidator (this σ1) = VObject f
    ∧ heap σ1 !! f = Some (OFunction (FMaxValidator x))
    ∧ (x = VDateNow
       ∨ strict_equal x VDateNow = false
         ∧ ∀ σ2, heap σ1 ⊆ heap σ2 → ∃ r σ3, cast x σ2 = (Normal r, σ3)).
Proof.
  intros E T. apply max_outcome in E. rewrite T in E.
  destruct E as [(e & ? & _)|(_ & h & msg & -> & Hsub & Hx)]; [done|].
  exists (fresh (dom h)). simpl. rewrite lookup_insert_eq.
  split; [done|]. split; [done|].
  destruct (strict_equal x VDateNow) eqn:DN;
    [left; by apply strict_equal_DateNow|right; split; [done|]].
  destruct Hx as [->|(r & EC)]; [done|]. intros σ2 Hsub2.
  eapply cast_extends; [exact EC|]. simpl.
  etrans; [exact Hsub|]. etrans; [|exact Hsub2].
  apply insert_subseteq, not_elem_of_dom, is_fresh.
Qed.

(** ** Query casting *)

Lemma conditionalHandlers_own op :
  op ∈ ["$gt"; "$gte"; "$lt"; "$lte"] → conditionalHandlers !! op = Some handleSingle.
Proof.
  intros Hop. unfold conditionalHandlers, utils_options.
  apply lookup_union_Some_l.
  repeat (apply elem_of_cons in Hop as [->|Hop]; [by simplify_map_eq|]).
  by apply elem_of_nil in Hop.
Qed.

Lemma ToPropertyKey_string op σ :
  ToPropertyKey (VString op) σ = (Normal (Some op), σ).
Proof. reflexivity. Qed.

Lemma usage_message_string op σ :
  usage_message (VString op) σ = (Normal ("Can't use " ++ op ++ " with Date."), σ).
Proof. reflexivity. Qed.

(** ** The properties of the specification *)

(** C1. A primitive boolean is never cast: [cast(true)] and [cast(false)]
    throw a CastError of kind "date" that carries the boolean and the path
    of the field and leave the world untouched, although the Date
    constructor would have read the boolean as the valid time value 1 or 0:
    the rejection comes before the numeric branch. *)
Theorem cast_boolean_rejected (b : bool) σ :
  cast (VBool b) σ = (Throw (CastError "date" (VBool b) (path (this σ))), σ)
  ∧ Date_time (VBool b) σ = (Normal (if b then 1%float else 0%float), σ)
  ∧ is_nan (TimeClip (if b then 1%float else 0%float)) = false.
Proof.
  split; [reflexivity|]. split; [reflexivity|]. by destruct b.
Qed.

(** C2. A string [s] whose number [Number(s)] is not NaN and is at least
    275761 or below -271820 is cast as that number of epoch milliseconds:
    [cast(s)] and [cast(Number(s))] allocate the same Date, with time value
    [TimeClip(Number(s))], in the same world, or both throw a CastError of
    kind "date" with the path, each naming its own candidate, when that time
    value is out of range.  The calendar parser, which the [valueOf] branch
    would have applied to [s], plays no part. *)
Theorem cast_epoch_string (s : string) σ :
  let n := StringToNumber s in
  let l := fresh (dom (heap σ)) in
  let σ' := State (this σ) (<[l := ODate (TimeClip n)]> (heap σ)) (clock σ) in
  is_nan n = false →
  (275761 <=? n)%float = true ∨ (n <? -271820)%float = true →
  cast (VNumber n) σ =
    (if is_nan (TimeClip n)
     then Throw (CastError "date" (VNumber n) (path (this σ)))
     else Normal (VObject l), σ')
  ∧ cast (VString s) σ =
    (if is_nan (TimeClip n)
     then Throw (CastError "date" (VString s) (path (this σ)))
     else Normal (VObject l), σ')
  ∧ (v ← valueOf (VString s); Date_time v) σ = (Normal (Date_parse s), σ).
Proof.
  intros n l σ' Hn Hr.
  assert (s ≠ "") as Hs.
  { intros ->. subst n. rewrite StringToNumber_empty in Hr.
    by destruct Hr as [Hr|Hr]; vm_compute in Hr. }
  assert (is_epoch_string (VString s) = true) as He.
  { unfold is_epoch_string. fold n. rewrite Hn. simpl.
    destruct Hr as [-> | ->]; [done|apply orb_true_r]. }
  rewrite !cast_unfold. simpl. destruct s; [done|]. simpl.
  split; [|split]; [| |reflexivity].
  - by apply (cast_object_construct _ _ (VNumber n) n).
  - apply (cast_object_construct _ _ (VNumber n) n); try done.
    unfold cast_argument. rewrite He. reflexivity.
Qed.

(** C3. A Date instance is returned as it is, the same reference and an
    unchanged world, when its time value is a number; when its time value is
    NaN the cast throws a CastError of kind "date" with the instance and the
    path. *)
Theorem cast_Date_identity σ l (tv : number) :
  heap σ !! l = Some (ODate tv) →
  cast (VObject l) σ =
    if is_nan tv
    then (Throw (CastError "date" (VObject l) (path (this σ))), σ)
    else (Normal (VObject l), σ).
Proof.
  intros E. unfold cast, instanceof_Date, valueOf, isNaN, deref. run.
  rewrite !E. simpl. by destruct (is_nan tv).
Qed.

(** C4. [cast(null)], [cast(undefined)] and [cast('')] return [null] and
    leave the world as it was; no other input is cast to [null]. *)
Theorem cast_empty_inputs σ :
  (cast VNull σ = (Normal VNull, σ)
   ∧ cast VUndefined σ = (Normal VNull, σ)
   ∧ cast (VString "") σ = (Normal VNull, σ))
  ∧ ∀ v σ', cast v σ = (Normal VNull, σ') →
      v = VNull ∨ v = VUndefined ∨ v = VString "".
Proof.
  split; [done|]. intros v σ' E.
  apply cast_normal in E as [(N & _)|(_ & l & tv & ? & _)]; done.
Qed.

(** C5. Start from a field whose chain holds at most one entry of type
    "min" and one of type "max", each with the closure that [minValidator]
    or [maxValidator] names (a new field has none).  After any sequence of
    calls of [min] and [max], returning or throwing, the chain holds at most
    one entry of each type.  A further [min(x)] with a truthy [x] that
    returns leaves exactly one "min" entry: the one it pushed, with bound [x]
    and a closure that did not exist before, which [minValidator] now names.
    A further [min(x)] with a falsy [x] returns, leaves no "min" entry,
    adds no entry and allocates nothing.  The same holds for [max]. *)
Theorem bound_validators_unique (cs : list bound_call) σ0 :
  bounds_ok (this σ0) →
  let σ := run_calls cs σ0 in
  ((count_type "min" (this σ) ≤ 1)%nat ∧ (count_type "max" (this σ) ≤ 1)%nat)
  ∧ (∀ x m c σ', min x m σ = (c, σ') →
       if ToBoolean x
       then c = Normal () →
            ∃ f msg,
              of_type "min" (validators (this σ'))
                = [Entry.Build (VObject f) msg "min" (Some x) None]
              ∧ minValidator (this σ') = VObject f
              ∧ heap σ !! f = None
              ∧ heap σ' !! f = Some (OFunction (FMinValidator x))
       else c = Normal ()
            ∧ of_type "min" (validators (this σ')) = []
            ∧ validators (this σ') `sublist_of` validators (this σ)
            ∧ heap σ' = heap σ)
  ∧ (∀ x m c σ', max x m σ = (c, σ') →
       if ToBoolean x
       then c = Normal () →
            ∃ f msg,
              of_type "max" (validators (this σ'))
                = [Entry.Build (VObject f) msg "max" None (Some x)]
              ∧ maxValidator (this σ') = VObject f
              ∧ heap σ !! f = None
              ∧ heap σ' !! f = Some (OFunction (FMaxValidator x))
       else c = Normal ()
            ∧ of_type "max" (validators (this σ')) = []
            ∧ validators (this σ') `sublist_of` validators (this σ)
            ∧ heap σ' = heap σ).
Proof.
  intros Ok0 σ. pose proof (run_calls_preserves cs σ0 Ok0) as Ok. fold σ in Ok.
  split; [by destruct Ok as (? & ? & _)|]. split.
  - intros x m c σ' E. apply min_outcome in E.
    destruct (removed_min_ok _ Ok) as (Nil & _). simpl in E.
    destruct (ToBoolean x).
    + intros ->. destruct E as [(e & ? & _)|(_ & h & msg & -> & Hsub & _)]; [done|].
      exists (fresh (dom h)), msg. simpl. rewrite of_type_push, Nil. simpl.
      split; [done|]. split; [done|]. rewrite lookup_insert_eq. split; [|done].
      eapply lookup_weaken_None; [|done]. apply not_elem_of_dom, is_fresh.
    + destruct E as (-> & ->). simpl. split; [done|]. split; [done|].
      split; [apply removed_validators|done].
  - intros x m c σ' E. apply max_outcome in E.
    destruct (removed_max_ok _ Ok) as (Nil & _). simpl in E.
    destruct (ToBoolean x).
    + intros ->. destruct E as [(e & ? & _)|(_ & h & msg & -> & Hsub & _)]; [done|].
      exists (fresh (dom h)), msg. simpl. rewrite of_type_push, Nil. simpl.
      split; [done|]. split; [done|]. rewrite lookup_insert_eq. split; [|done].
      eapply lookup_weaken_None; [|done]. apply not_elem_of_dom, is_fresh.
    + destruct E as (-> & ->). simpl. split; [done|]. split; [done|].
      split; [apply removed_validators|done].
Qed.

(** What the closure of [min] over the bound [x] answers for a Date with
    time value [tv]: the bound is resolved in the world of the call. *)
Lemma minValidator_call_compares x σ l (tv : number) :
  ToBoolean x = true → heap σ !! l = Some (ODate tv) →
  if strict_equal x VDateNow
  then minValidator_call x (VObject l) σ
       = (Normal (VBool (clock σ <=? tv)%float), σ)
  else match cast x σ with
       | (Normal r, σ') =>
           ∃ lr tb, r = VObject lr ∧ heap σ' !! lr = Some (ODate tb)
             ∧ minValidator_call x (VObject l) σ
               = (Normal (VBool (tb <=? tv)%float), σ')
       | (Throw e, σ') => minValidator_call x (VObject l) σ = (Throw e, σ')
       end.
Proof.
  intros T El. unfold minValidator_call.
  destruct (strict_equal x VDateNow) eqn:DN.
  { unfold bind at 1. simpl.
    rewrite (bind_run _ _ _ _ _ (valueOf_Date _ _ _ El)). reflexivity. }
  destruct (cast x σ) as [[r|e] σ'] eqn:EC; [|by apply bind_throw].
  destruct (cast_bound _ _ _ _ T EC) as (lr & tb & -> & Er & Hsub).
  exists lr, tb. split; [done|]. split; [done|].
  rewrite (bind_run _ _ _ _ _ EC). simpl.
  rewrite (bind_run _ _ _ _ _ (valueOf_Date _ _ _ (lookup_weaken _ _ _ _ El Hsub))).
  rewrite (bind_run _ _ _ _ _ (valueOf_Date _ _ _ Er)). reflexivity.
Qed.

Lemma maxValidator_call_compares x σ l (tv : number) :
  ToBoolean x = true → heap σ !! l = Some (ODate tv) →
  if strict_equal x VDateNow
  then maxValidator_call x (VObject l) σ
       = (Normal (VBool (tv <=? clock σ)%float), σ)
  else match cast x σ with
       | (Normal r, σ') =>
           ∃ lr tb, r = VObject lr ∧ heap σ' !! lr = Some (ODate tb)
             ∧ maxValidator_call x (VObject l) σ
               = (Normal (VBool (tv <=? tb)%float), σ')
       | (Throw e, σ') => maxValidator_call x (VObject l) σ = (Throw e, σ')
       end.
Proof.
  intros T El. unfold maxValidator_call.
  destruct (strict_equal x VDateNow) eqn:DN.
  { unfold bind at 1. simpl.
    rewrite (bind_run _ _ _ _ _ (valueOf_Date _ _ _ El)). reflexivity. }
  destruct (cast x σ) as [[r|e] σ'] eqn:EC; [|by apply bind_throw].
  destruct (cast_bound _ _ _ _ T EC) as (lr & tb & -> & Er & Hsub).
  exists lr, tb. split; [done|]. split; [done|].
  rewrite (bind_run _ _ _ _ _ EC). simpl.
  rewrite (bind_run _ _ _ _ _ (valueOf_Date _ _ _ (lookup_weaken _ _ _ _ El Hsub))).
  rewrite (bind_run _ _ _ _ _ (valueOf_Date _ _ _ Er)). reflexivity.
Qed.

(** What [min] and [max] leave behind when they return for a truthy bound:
    a closure over the bound as it was given, new in the heap, named by the
    field and held by the last entry of the chain. *)
Lemma min_pushed x m σ σ1 :
  ToBoolean x = true → min x m σ = (Normal (), σ1) →
  ∃ f msg,
    minValidator (this σ1) = VObject f
    ∧ last (validators (this σ1))
      = Some (Entry.Build (VObject f) msg "min" (Some x) None)
    ∧ heap σ !! f = None
    ∧ heap σ1 !! f = Some (OFunction (FMinValidator x)).
Proof.
  intros T E. apply min_outcome in E. rewrite T in E.
  destruct E as [(e & ? & _)|(_ & h & msg & -> & Hsub & _)]; [done|].
  exists (fresh (dom h)), msg. simpl. rewrite last_snoc, lookup_insert_eq.
  split; [done|]. split; [done|]. split; [|done].
  eapply lookup_weaken_None; [|done]. apply not_elem_of_dom, is_fresh.
Qed.

Lemma max_pushed x m σ σ1 :
  ToBoolean x = true → max x m σ = (Normal (), σ1) →
  ∃ f msg,
    maxValidator (this σ1) = VObject f
    ∧ last (validators (this σ1))
      = Some (Entry.Build (VObject f) msg "max" None (Some x))
    ∧ heap σ !! f = None
    ∧ heap σ1 !! f = Some (OFunction (FMaxValidator x)).
Proof.
  intros T E. apply max_outcome in E. rewrite T in E.
  destruct E as [(e & ? & _)|(_ & h & msg & -> & Hsub & _)]; [done|].
  exists (fresh (dom h)), msg. simpl. rewrite last_snoc, lookup_insert_eq.
  split; [done|]. split; [done|]. split; [|done].
  eapply lookup_weaken_None; [|done]. apply not_elem_of_dom, is_fresh.
Qed.

(** C6. When [min(x)] returns for a truthy bound [x], the field names a
    closure [f] that did not exist before, held by the entry that was
    pushed last, and the closure holds the bound as it was given: for
    [Date.now] the marker itself, no time read at the installation.  In
    every later world [σ2] in which [f] is that closure, whatever else
    has changed, [f] applied to a Date with time value [tv] resolves the
    bound in [σ2].  With the bound [Date.now] it answers [now <= tv], where
    [now] is the clock of [σ2]: the marker is called at each evaluation.
    With any other bound it casts [x] in [σ2]: it throws what that cast
    throws, and otherwise answers [tb <= tv], where [tb] is the time value
    of the Date that the cast returned.  The same holds for [max(x)], whose
    closure answers [tv <= now] and [tv <= tb]. *)
Theorem bound_predicate_compares x m σ σ1 :
  ToBoolean x = true →
  (min x m σ = (Normal (), σ1) →
   ∃ f msg,
     minValidator (this σ1) = VObject f
     ∧ last (validators (this σ1))
       = Some (Entry.Build (VObject f) msg "min" (Some x) None)
     ∧ heap σ !! f = None
     ∧ heap σ1 !! f = Some (OFunction (FMinValidator x))
     ∧ ∀ σ2 l (tv : number),
         heap σ2 !! f = Some (OFunction (FMinValidator x)) →
         heap σ2 !! l = Some (ODate tv) →
         if strict_equal x VDateNow
         then call (VObject f) (VObject l) σ2
              = (Normal (VBool (clock σ2 <=? tv)%float), σ2)
         else match cast x σ2 with
              | (Normal r, σ3) =>
                  ∃ lr tb, r = VObject lr ∧ heap σ3 !! lr = Some (ODate tb)
                    ∧ call (VObject f) (VObject l) σ2
                      = (Normal (VBool (tb <=? tv)%float), σ3)
              | (Throw e, σ3) => call (VObject f) (VObject l) σ2 = (Throw e, σ3)
              end)
  ∧ (max x m σ = (Normal (), σ1) →
   ∃ f msg,
     maxValidator (this σ1) = VObject f
     ∧ last (validators (this σ1))
       = Some (Entry.Build (VObject f) msg "max" None (Some x))
     ∧ heap σ !! f = None
     ∧ heap σ1 !! f = Some (OFunction (FMaxValidator x))
     ∧ ∀ σ2 l (tv : number),
         heap σ2 !! f = Some (OFunction (FMaxValidator x)) →
         heap σ2 !! l = Some (ODate tv) →
         if strict_equal x VDateNow
         then call (VObject f) (VObject l) σ2
              = (Normal (VBool (tv <=? clock σ2)%float), σ2)
         else match cast x σ2 with
              | (Normal r, σ3) =>
                  ∃ lr tb, r = VObject lr ∧ heap σ3 !! lr = Some (ODate tb)
                    ∧ call (VObject f) (VObject l) σ2
                      = (Normal (VBool (tv <=? tb)%float), σ3)
              | (Throw e, σ3) => call (VObject f) (VObject l) σ2 = (Throw e, σ3)
              end).
Proof.
  intros T. split; intros E.
  - destruct (min_pushed _ _ _ _ T E) as (f & msg & Hf & Hl & Hn & Ef).
    exists f, msg. do 4 (split; [done|]). intros σ2 l tv Ef2 El.
    rewrite (call_closure _ _ _ _ Ef2).
    apply minValidator_call_compares; done.
  - destruct (max_pushed _ _ _ _ T E) as (f & msg & Hf & Hl & Hn & Ef).
    exists f, msg. do 4 (split; [done|]). intros σ2 l tv Ef2 El.
    rewrite (call_closure _ _ _ _ Ef2).
    apply maxValidator_call_compares; done.
Qed.

(** What the closures answer for a candidate that is no Date reference:
    [null] passes and [undefined] cannot be read, once the bound has been
    resolved. *)
Lemma minValidator_call_null x σ :
  if strict_equal x VDateNow
  then minValidator_call x VNull σ = (Normal (VBool true), σ)
  else match cast x σ with
       | (Normal _, σ') => minValidator_call x VNull σ = (Normal (VBool true), σ')
       | (Throw e, σ') => minValidator_call x VNull σ = (Throw e, σ')
       end.
Proof.
  unfold minValidator_call. destruct (strict_equal x VDateNow); [done|].
  destruct (cast x σ) as [[r|e] σ'] eqn:EC; [|by apply bind_throw].
  by rewrite (bind_run _ _ _ _ _ EC).
Qed.

Lemma maxValidator_call_null x σ :
  if strict_equal x VDateNow
  then maxValidator_call x VNull σ = (Normal (VBool true), σ)
  else match cast x σ with
       | (Normal _, σ') => maxValidator_call x VNull σ = (Normal (VBool true), σ')
       | (Throw e, σ') => maxValidator_call x VNull σ = (Throw e, σ')
       end.
Proof.
  unfold maxValidator_call. destruct (strict_equal x VDateNow); [done|].
  destruct (cast x σ) as [[r|e] σ'] eqn:EC; [|by apply bind_throw].
  by rewrite (bind_run _ _ _ _ _ EC).
Qed.

Lemma minValidator_call_undefined x σ :
  if strict_equal x VDateNow
  then minValidator_call x VUndefined σ = (Throw TypeError, σ)
  else match cast x σ with
       | (Normal _, σ') => minValidator_call x VUndefined σ = (Throw TypeError, σ')
       | (Throw e, σ') => minValidator_call x VUndefined σ = (Throw e, σ')
       end.
Proof.
  unfold minValidator_call. destruct (strict_equal x VDateNow); [done|].
  destruct (cast x σ) as [[r|e] σ'] eqn:EC; [|by apply bind_throw].
  by rewrite (bind_run _ _ _ _ _ EC).
Qed.

Lemma maxValidator_call_undefined x σ :
  if strict_equal x VDateNow
  then maxValidator_call x VUndefined σ = (Throw TypeError, σ)
  else match cast x σ with
       | (Normal _, σ') => maxValidator_call x VUndefined σ = (Throw TypeError, σ')
       | (Throw e, σ') => maxValidator_call x VUndefined σ = (Throw e, σ')
       end.
Proof.
  unfold maxValidator_call. destruct (strict_equal x VDateNow); [done|].
  destruct (cast x σ) as [[r|e] σ'] eqn:EC; [|by apply bind_throw].
  by rewrite (bind_run _ _ _ _ _ EC).
Qed.

(** C7, amended.  The closure that [min(x)] or [max(x)] installed for a
    truthy [x] resolves its bound before it looks at the candidate.  For
    the candidate [null], in every later world [σ2] in which it is still
    that closure: with the bound [Date.now] it answers [true]; with a
    literal bound it answers [true] when the cast of the bound succeeds in
    [σ2] and throws what that cast throws when it fails.  The cast succeeds,
    and [null] passes, in the world the installation left and in every
    world whose heap extends it: objects were added and none was changed,
    in its time value or in what its methods return. *)
Theorem bound_predicate_accepts_null x m σ σ1 :
  ToBoolean x = true →
  (min x m σ = (Normal (), σ1) →
   ∃ f, minValidator (this σ1) = VObject f
     ∧ heap σ1 !! f = Some (OFunction (FMinValidator x))
     ∧ (∀ σ2, heap σ2 !! f = Some (OFunction (FMinValidator x)) →
          if strict_equal x VDateNow
          then call (VObject f) VNull σ2 = (Normal (VBool true), σ2)
          else match cast x σ2 with
               | (Normal _, σ3) =>
                   call (VObject f) VNull σ2 = (Normal (VBool true), σ3)
               | (Throw e, σ3) => call (VObject f) VNull σ2 = (Throw e, σ3)
               end)
     ∧ (∀ σ2, heap σ1 ⊆ heap σ2 →
          ∃ σ3, call (VObject f) VNull σ2 = (Normal (VBool true), σ3)))
  ∧ (max x m σ = (Normal (), σ1) →
   ∃ f, maxValidator (this σ1) = VObject f
     ∧ heap σ1 !! f = Some (OFunction (FMaxValidator x))
     ∧ (∀ σ2, heap σ2 !! f = Some (OFunction (FMaxValidator x)) →
          if strict_equal x VDateNow
          then call (VObject f) VNull σ2 = (Normal (VBool true), σ2)
          else match cast x σ2 with
               | (Normal _, σ3) =>
                   call (VObject f) VNull σ2 = (Normal (VBool true), σ3)
               | (Throw e, σ3) => call (VObject f) VNull σ2 = (Throw e, σ3)
               end)
     ∧ (∀ σ2, heap σ1 ⊆ heap σ2 →
          ∃ σ3, call (VObject f) VNull σ2 = (Normal (VBool true), σ3))).
Proof.
  intros T. split; intros E.
  - apply min_installed in E as (f & Hf & Ef & Hx); [|done].
    exists f. split; [done|]. split; [done|]. split.
    + intros σ2 Ef2. rewrite (call_closure _ _ _ _ Ef2).
      apply minValidator_call_null.
    + intros σ2 Hsub.
      rewrite (call_closure _ _ _ _ (lookup_weaken _ _ _ _ Ef Hsub)).
      pose proof (minValidator_call_null x σ2) as Hc.
      destruct Hx as [->|(DN & Hx)]; [by eexists|]. rewrite DN in Hc.
      destruct (Hx σ2 Hsub) as (r & σ3 & EC). rewrite EC in Hc. by eexists.
  - apply max_installed in E as (f & Hf & Ef & Hx); [|done].
    exists f. split; [done|]. split; [done|]. split.
    + intros σ2 Ef2. rewrite (call_closure _ _ _ _ Ef2).
      apply maxValidator_call_null.
    + intros σ2 Hsub.
      rewrite (call_closure _ _ _ _ (lookup_weaken _ _ _ _ Ef Hsub)).
      pose proof (maxValidator_call_null x σ2) as Hc.
      destruct Hx as [->|(DN & Hx)]; [by eexists|]. rewrite DN in Hc.
      destruct (Hx σ2 Hsub) as (r & σ3 & EC). rewrite EC in Hc. by eexists.
Qed.

(** C8. With two arguments, [castForQuery(op, val)] is [cast(val)] when
    [op] is one of [$gt], [$gte], [$lt] and [$lte]; when
    [$conditionalHandlers] has no entry for [op] it throws the Error
    "Can't use <op> with Date." and changes nothing. *)
Theorem castForQuery_two_arguments (op : string) (val : value) σ :
  (op ∈ ["$gt"; "$gte"; "$lt"; "$lte"] →
   castForQuery [VString op; val] σ = cast val σ)
  ∧ (conditionalHandlers !! op = None →
     castForQuery [VString op; val] σ
     = (Throw (Error ("Can't use " ++ op ++ " with Date.")), σ)).
Proof.
  unfold castForQuery. rewrite (bind_run _ _ _ _ _ (ToPropertyKey_string op σ)).
  split.
  - intros Hop. by rewrite (conditionalHandlers_own _ Hop).
  - intros ->. by rewrite (bind_run _ _ _ _ _ (usage_message_string op σ)).
Qed.

(** C9. A boxed Boolean is not a primitive boolean: [cast] takes it through
    the [valueOf] branch and returns a new Date at epoch millisecond 1 for
    [new Boolean(true)] and 0 for [new Boolean(false)]. *)
Theorem cast_boxed_Boolean σ l (b : bool) :
  heap σ !! l = Some (OBoolean b) →
  let l' := fresh (dom (heap σ)) in
  cast (VObject l) σ =
    (Normal (VObject l'),
     State (this σ)
       (<[l' := ODate (if b then 1%float else 0%float)]> (heap σ)) (clock σ)).
Proof.
  intros E l'. rewrite cast_unfold. simpl.
  rewrite (cast_object_construct _ _ (VBool b) (if b then 1%float else 0%float)).
  - by destruct b.
  - unfold instanceof_Date, deref, bind. by rewrite E.
  - done.
  - unfold cast_argument, instanceof_Number, has_valueOf, valueOf, deref, bind, ret.
    simpl. by repeat (rewrite E; simpl).
  - by destruct b.
Qed.

(** C10, amended.  The closure that [min(x)] or [max(x)] installed for a
    truthy [x] resolves its bound first and then, [undefined] not being
    [null], reads [undefined.valueOf], which throws a TypeError.  For the
    candidate [undefined], in every later world [σ2] in which it is still
    that closure: with the bound [Date.now] it throws the TypeError; with a
    literal bound it throws the TypeError when the cast of the bound
    succeeds in [σ2], and what that cast throws when it fails.  It never
    returns.  The TypeError is what it throws in the world the installation
    left and in every world whose heap extends it: objects were added and
    none was changed, in its time value or in what its methods return. *)
Theorem bound_predicate_undefined_throws x m σ σ1 :
  ToBoolean x = true →
  (min x m σ = (Normal (), σ1) →
   ∃ f, minValidator (this σ1) = VObject f
     ∧ heap σ1 !! f = Some (OFunction (FMinValidator x))
     ∧ (∀ σ2, heap σ2 !! f = Some (OFunction (FMinValidator x)) →
          if strict_equal x VDateNow
          then call (VObject f) VUndefined σ2 = (Throw TypeError, σ2)
          else match cast x σ2 with
               | (Normal _, σ3) =>
                   call (VObject f) VUndefined σ2 = (Throw TypeError, σ3)
               | (Throw e, σ3) => call (VObject f) VUndefined σ2 = (Throw e, σ3)
               end)
     ∧ (∀ σ2, heap σ1 ⊆ heap σ2 →
          ∃ σ3, call (VObject f) VUndefined σ2 = (Throw TypeError, σ3)))
  ∧ (max x m σ = (Normal (), σ1) →
   ∃ f, maxValidator (this σ1) = VObject f
     ∧ heap σ1 !! f = Some (OFunction (FMaxValidator x))
     ∧ (∀ σ2, heap σ2 !! f = Some (OFunction (FMaxValidator x)) →
          if strict_equal x VDateNow
          then call (VObject f) VUndefined σ2 = (Throw TypeError, σ2)
          else match cast x σ2 with
               | (Normal _, σ3) =>
                   call (VObject f) VUndefined σ2 = (Throw TypeError, σ3)
               | (Throw e, σ3) => call (VObject f) VUndefined σ2 = (Throw e, σ3)
               end)
     ∧ (∀ σ2, heap σ1 ⊆ heap σ2 →
          ∃ σ3, call (VObject f) VUndefined σ2 = (Throw TypeError, σ3))).
Proof.
  intros T. split; intros E.
  - apply min_installed in E as (f & Hf & Ef & Hx); [|done].
    exists f. split; [done|]. split; [done|]. split.
    + intros σ2 Ef2. rewrite (call_closure _ _ _ _ Ef2).
      apply minValidator_call_undefined.
    + intros σ2 Hsub.
      rewrite (call_closure _ _ _ _ (lookup_weaken _ _ _ _ Ef Hsub)).
      pose proof (minValidator_call_undefined x σ2) as Hc.
      destruct Hx as [->|(DN & Hx)]; [by eexists|]. rewrite DN in Hc.
      destruct (Hx σ2 Hsub) as (r & σ3 & EC). rewrite EC in Hc. by eexists.
  - apply max_installed in E as (f & Hf & Ef & Hx); [|done].
    exists f. split; [done|]. split; [done|]. split.
    + intros σ2 Ef2. rewrite (call_closure _ _ _ _ Ef2).
      apply maxValidator_call_undefined.
    + intros σ2 Hsub.
      rewrite (call_closure _ _ _ _ (lookup_weaken _ _ _ _ Ef Hsub)).
      pose proof (maxValidator_call_undefined x σ2) as Hc.
      destruct Hx as [->|(DN & Hx)]; [by eexists|]. rewrite DN in Hc.
      destruct (Hx σ2 Hsub) as (r & σ3 & EC). rewrite EC in Hc. by eexists.
Qed.


(** ** Further properties of [cast] *)

(** X1. Whatever [cast] returns is [null] or a Date instance that the heap
    holds with a time value that is a number: an invalid Date never comes
    out of a cast. *)
Theorem cast_returns_null_or_valid_Date v σ r σ' :
  cast v σ = (Normal r, σ') →
  r = VNull
  ∨ ∃ l tv, r = VObject l ∧ heap σ' !! l = Some (ODate tv) ∧ is_nan tv = false.
Proof.
  intros E. apply cast_normal in E as [(_ & -> & _)|(_ & l & tv & -> & ? & ? & _)].
  - by left.
  - right. eauto.
Qed.

(** X2. Casting is idempotent: what a cast returned is cast to itself, the
    same reference, and the second cast changes nothing. *)
Theorem cast_idempotent v σ r σ' :
  cast v σ = (Normal r, σ') → cast r σ' = (Normal r, σ').
Proof.
  intros E. apply cast_normal in E as [(_ & -> & _)|(_ & l & tv & -> & El & Hn & _)].
  - reflexivity.
  - rewrite cast_unfold. simpl. by apply (cast_object_Date_run _ _ tv).
Qed.

(** How [cast] goes on for a candidate with built-in methods that is not
    one of the three empty inputs, a boolean, a Symbol or a Date: the
    argument of the Date constructor and its time value are read without
    an exception and without a change. *)
Lemma cast_built_in v σ :
  built_in (heap σ) v = true →
  null_like v ∨ (∃ b, v = VBool b) ∨ (∃ id, v = VSymbol id)
  ∨ (∃ l tv, v = VObject l ∧ heap σ !! l = Some (ODate tv))
  ∨ (instanceof_Date v σ = (Normal false, σ) ∧ (∀ b, v ≠ VBool b)
     ∧ ∃ x tv, cast_argument v σ = (Normal x, σ)
         ∧ Date_time x σ = (Normal tv, σ)).
Proof.
  intros B. destruct v as [| |b|n|s|id| |l]; simpl in B.
  - left. unfold null_like. auto.
  - left. unfold null_like. auto.
  - right. left. eauto.
  - do 4 right. split; [done|]. split; [done|].
    by exists (VNumber n), n.
  - do 4 right. split; [done|]. split; [done|].
    destruct (is_epoch_string (VString s)) eqn:He.
    + exists (VNumber (StringToNumber s)), (StringToNumber s).
      unfold cast_argument. rewrite He. done.
    + exists (VString s), (Date_parse s).
      unfold cast_argument. rewrite He. done.
  - right. right. left. eauto.
  - do 4 right. split; [done|]. split; [done|].
    by exists VDateNow, (Date_parse (Function_toString FDateNow)).
  - destruct (heap σ !! l) as [o|] eqn:El; [|done].
    assert (∀ b, VObject l ≠ VBool b) as NB by done.
    destruct o as [tv|n|b|s|f|vo ts]; [| | | | |done].
    + right. right. right. left. eauto.
    + do 4 right. split; [|split; [done|]].
      { unfold instanceof_Date, deref, bind. by rewrite El. }
      exists (VObject l), n.
      unfold cast_argument, instanceof_Number, Date_time, ToPrimitive, ToNumber,
        deref, bind, ret. simpl. by repeat (rewrite El; simpl).
    + do 4 right. split; [|split; [done|]].
      { unfold instanceof_Date, deref, bind. by rewrite El. }
      exists (VBool b), (if b then 1%float else 0%float).
      unfold cast_argument, instanceof_Number, has_valueOf, valueOf, deref,
        bind, ret. simpl. by repeat (rewrite El; simpl).
    + do 4 right. split; [|split; [done|]].
      { unfold instanceof_Date, deref, bind. by rewrite El. }
      exists (VString s), (Date_parse s).
      unfold cast_argument, instanceof_Number, has_valueOf, valueOf, deref,
        bind, ret. simpl. by repeat (rewrite El; simpl).
    + do 4 right. split; [|split; [done|]].
      { unfold instanceof_Date, deref, bind. by rewrite El. }
      exists (VObject l), (Date_parse (Function_toString f)).
      unfold cast_argument, instanceof_Number, has_valueOf, valueOf, Date_time,
        ToPrimitive, deref, bind, ret. simpl. by repeat (rewrite El; simpl).
Qed.

(** Every outcome of [cast] on a candidate with built-in methods. *)
Lemma cast_built_in_outcome v σ :
  built_in (heap σ) v = true →
  (null_like v ∧ cast v σ = (Normal VNull, σ))
  ∨ (∃ b, v = VBool b
      ∧ cast v σ = (Throw (CastError "date" v (path (this σ))), σ))
  ∨ (∃ id, v = VSymbol id ∧ cast v σ = (Throw TypeError, σ))
  ∨ (∃ l tv, v = VObject l ∧ heap σ !! l = Some (ODate tv)
      ∧ cast v σ = (if is_nan tv
                    then Throw (CastError "date" v (path (this σ)))
                    else Normal v, σ))
  ∨ (¬ null_like v ∧ ∃ tv,
      cast v σ = (if is_nan tv
                  then Throw (CastError "date" v (path (this σ)))
                  else Normal (VObject (fresh (dom (heap σ)))), with_Date tv σ)).
Proof.
  intros B.
  destruct (strict_equal v VNull || strict_equal v VUndefined
            || strict_equal v (VString "")) eqn:N.
  { left. split; [by apply null_like_test|]. by rewrite cast_unfold, N. }
  assert (¬ null_like v) as NL by (rewrite <-null_like_test; by rewrite N).
  destruct (cast_built_in v σ B)
    as [?|[(b & ->)|[(id & ->)|[(l & tv & -> & El)|(ED & NB & x & tv & EA & ET)]]]].
  - done.
  - right. left. eauto.
  - right. right. left. eauto.
  - right. right. right. left. exists l, tv. split; [done|]. split; [done|].
    unfold cast, instanceof_Date, valueOf, isNaN, deref. run.
    rewrite !El. simpl. by destruct (is_nan tv).
  - do 4 right. split; [done|].
    exists (TimeClip tv). rewrite cast_unfold, N.
    by apply (cast_object_construct _ _ x tv).
Qed.

(** X3. On a candidate with built-in methods (a primitive, [Date.now], a
    Date, a boxed primitive, a function), [cast] keeps the receiver and the
    clock and changes no object of the heap, whether it returns or throws.
    It adds no object, or one Date: the Date it returns when the time value
    is a number, and the invalid Date it built when it throws the CastError
    for the candidate.  The error itself is carried by the completion. *)
Theorem cast_allocates_at_most_one_Date v σ c σ' :
  built_in (heap σ) v = true →
  cast v σ = (c, σ') →
  this σ' = this σ ∧ clock σ' = clock σ
  ∧ (heap σ' = heap σ
     ∨ ∃ tv, heap σ !! fresh (dom (heap σ)) = None
         ∧ heap σ' = <[fresh (dom (heap σ)) := ODate tv]> (heap σ)
         ∧ c = if is_nan tv
               then Throw (CastError "date" v (path (this σ)))
               else Normal (VObject (fresh (dom (heap σ))))).
Proof.
  intros B E. destruct (cast_built_in_outcome v σ B)
    as [(_ & E')|[(b & _ & E')|[(id & _ & E')|[(l & tv & _ & _ & E')|(_ & tv & E')]]]];
    rewrite E' in E; injection E as <- <-; auto.
  simpl. split; [done|]. split; [done|]. right. exists tv.
  split; [apply alloc_fresh|done].
Qed.


(** X5. A number, primitive or boxed, is read as epoch milliseconds: the
    cast allocates a Date with time value [TimeClip(n)] and returns it, or
    throws the CastError for the candidate when that is NaN, which is the
    case for NaN, for the infinities and beyond 8.64e15 milliseconds.  Zero
    is a number like any other, not an empty input. *)
Theorem cast_number (n : number) v σ :
  v = VNumber n ∨ (∃ l, v = VObject l ∧ heap σ !! l = Some (ONumber n)) →
  cast v σ =
    (if is_nan (TimeClip n)
     then Throw (CastError "date" v (path (this σ)))
     else Normal (VObject (fresh (dom (heap σ)))),
     with_Date (TimeClip n) σ)
  ∧ (is_finite n = false ∨ (8.64e15 <? abs n)%float = true →
     is_nan (TimeClip n) = true).
Proof.
  intros Hv. split.
  - rewrite cast_unfold.
    destruct Hv as [->|(l & -> & El)]; simpl.
    + by apply (cast_object_construct _ _ (VNumber n) n).
    + apply (cast_object_construct _ _ (VObject l) n); try done.
      * unfold instanceof_Date, deref, bind. by rewrite El.
      * unfold cast_argument, instanceof_Number, deref, bind. by rewrite El.
      * unfold Date_time, ToPrimitive, ToNumber, deref, bind, ret. simpl.
        by repeat (rewrite El; simpl).
  - unfold TimeClip. intros [-> | Hb]; [done|].
    destruct (negb (is_finite n)); [done|]. by rewrite Hb.
Qed.

(** X6. A string that is not empty and is not taken for epoch milliseconds
    (its number is NaN, or lies from -271820 up to but not including
    275761, as "2020" does) goes to the calendar parser: the cast returns a
    new Date with time value [TimeClip(Date.parse(s))], or throws the
    CastError for the string when the parser gives NaN. *)
Theorem cast_calendar_string (s : string) σ :
  s ≠ "" → is_epoch_string (VString s) = false →
  cast (VString s) σ =
    (if is_nan (TimeClip (Date_parse s))
     then Throw (CastError "date" (VString s) (path (this σ)))
     else Normal (VObject (fresh (dom (heap σ)))),
     with_Date (TimeClip (Date_parse s)) σ).
Proof.
  intros Hs He. rewrite cast_unfold. destruct s; [done|]. simpl.
  apply (cast_object_construct _ _ (VString (String a s)) (Date_parse (String a s)));
    try done.
  unfold cast_argument. rewrite He. reflexivity.
Qed.

(** X7. A String wrapper is not a string for [cast]: its text goes to the
    calendar parser whatever it is, empty or all digits, and the CastError,
    if any, names the wrapper. *)
Theorem cast_boxed_String σ l (s : string) :
  heap σ !! l = Some (OString s) →
  cast (VObject l) σ =
    (if is_nan (TimeClip (Date_parse s))
     then Throw (CastError "date" (VObject l) (path (this σ)))
     else Normal (VObject (fresh (dom (heap σ)))),
     with_Date (TimeClip (Date_parse s)) σ).
Proof.
  intros El. rewrite cast_unfold. simpl.
  apply (cast_object_construct _ _ (VString s) (Date_parse s)); try done.
  - unfold instanceof_Date, deref, bind. by rewrite El.
  - unfold cast_argument, instanceof_Number, has_valueOf, valueOf, deref, bind, ret.
    simpl. by repeat (rewrite El; simpl).
Qed.

(** X8. An object whose [valueOf] is callable is cast through what
    [valueOf] returns.  When that is a number [n] (a moment.js value), the
    outcome is that of the number, except that the CastError names the
    object.  When that is a Date instance, its time value is copied into a
    new Date: the instance itself is not returned. *)
Theorem cast_through_valueOf σ l (r : value) (ts : option value) :
  heap σ !! l = Some (OOrdinary (Some r) ts) →
  (∀ n : number, r = VNumber n →
     cast (VObject l) σ =
       (if is_nan (TimeClip n)
        then Throw (CastError "date" (VObject l) (path (this σ)))
        else Normal (VObject (fresh (dom (heap σ)))),
        with_Date (TimeClip n) σ))
  ∧ (∀ ld (td : number), r = VObject ld → heap σ !! ld = Some (ODate td) →
     cast (VObject l) σ =
       (if is_nan (TimeClip td)
        then Throw (CastError "date" (VObject l) (path (this σ)))
        else Normal (VObject (fresh (dom (heap σ)))),
        with_Date (TimeClip td) σ)
     ∧ fresh (dom (heap σ)) ≠ ld).
Proof.
  intros El.
  assert (instanceof_Date (VObject l) σ = (Normal false, σ)) as ED.
  { unfold instanceof_Date, deref, bind. by rewrite El. }
  assert (cast_argument (VObject l) σ = (Normal r, σ)) as EA.
  { unfold cast_argument, instanceof_Number, has_valueOf, valueOf, deref, bind, ret.
    simpl. by repeat (rewrite El; simpl). }
  split.
  - intros n ->. rewrite cast_unfold. simpl.
    by apply (cast_object_construct _ _ (VNumber n) n).
  - intros ld td -> Ed. split.
    + rewrite cast_unfold. simpl.
      apply (cast_object_construct _ _ (VObject ld) td); try done.
      unfold Date_time, deref, bind. by rewrite Ed.
    + intros Heq. pose proof (alloc_fresh σ) as Hf. rewrite Heq in Hf. congruence.
Qed.

(** X9. Not every failure of [cast] is a CastError.  A Symbol, and an object
    with neither a callable [valueOf] nor a callable [toString], make the
    Date constructor throw a TypeError, which [cast] lets through; the world
    is unchanged.  An object with only a callable [toString] that returns a
    string is cast through the calendar parser on that string. *)
Theorem cast_without_valueOf σ :
  (∀ id, cast (VSymbol id) σ = (Throw TypeError, σ))
  ∧ (∀ l, heap σ !! l = Some (OOrdinary None None) →
       cast (VObject l) σ = (Throw TypeError, σ))
  ∧ (∀ l (s : string), heap σ !! l = Some (OOrdinary None (Some (VString s))) →
       cast (VObject l) σ =
         (if is_nan (TimeClip (Date_parse s))
          then Throw (CastError "date" (VObject l) (path (this σ)))
          else Normal (VObject (fresh (dom (heap σ)))),
          with_Date (TimeClip (Date_parse s)) σ)).
Proof.
  split; [done|]. split.
  - intros l El. unfold cast, instanceof_Date, instanceof_Number, has_valueOf,
      new_Date, Date_time, ToPrimitive, first_primitive, deref. run.
    by repeat (rewrite El; simpl).
  - intros l s El. rewrite cast_unfold. simpl.
    apply (cast_object_construct _ _ (VObject l) (Date_parse s)); try done.
    + unfold instanceof_Date, deref, bind. by rewrite El.
    + unfold cast_argument, instanceof_Number, has_valueOf, deref, bind, ret.
      simpl. by repeat (rewrite El; simpl).
    + unfold Date_time, ToPrimitive, first_primitive, deref, bind, ret. simpl.
      by repeat (rewrite El; simpl).
Qed.

(** X10. What [cast] returns is required-valid exactly when it is not
    [null]: [checkRequired] holds of every Date that a cast returned, in the
    world the cast left, and fails for the [null] of an empty input. *)
Theorem checkRequired_after_cast v σ r σ' :
  cast v σ = (Normal r, σ') →
  checkRequired r σ' = (Normal (negb (strict_equal r VNull)), σ').
Proof.
  intros E. apply cast_normal in E as [(_ & -> & _)|(_ & l & tv & -> & El & _)].
  - reflexivity.
  - unfold checkRequired, instanceof_Date, deref, bind. by rewrite El.
Qed.

(** ** [min] and [max] step by step *)

Lemma min_unfold x m σ :
  min x m σ =
    (if ToBoolean x then
       text ← (if strict_equal x VDateNow then ret "Date.now()"
               else d ← cast x; Date_prototype_toString d);
       f ← alloc (OFunction (FMinValidator x));
       self ← get_this;
       set_this (set_validators
         (validators self
          ++ [Entry.Build f
                (replace "{MIN}" text (or_default m messages_Date_min))
                "min" (Some x) None])
         (set_minValidator f self))
     else ret ()) (without (minValidator (this σ)) σ).
Proof.
  destruct σ as [d h ck]. unfold min, without, removed. rewrite bind_get_this.
  simpl. unfold bind at 1. by destruct (ToBoolean (minValidator d)).
Qed.

Lemma strict_equal_object v l : strict_equal v (VObject l) = true → v = VObject l.
Proof. destruct v; try done. simpl. by intros ->%Pos.eqb_eq. Qed.

Lemma filter_filter_implied {A} (P Q : A → Prop)
    `{∀ x, Decision (P x)} `{∀ x, Decision (Q x)} (vs : list A) :
  (∀ x, x ∈ vs → P x → Q x) → filter P (filter Q vs) = filter P vs.
Proof.
  induction vs as [|x vs IH]; intros Hi; [done|].
  rewrite !filter_cons. destruct (decide (Q x)) as [q|nq].
  - rewrite filter_cons. destruct (decide (P x)); rewrite IH; try done.
    all: intros y Hy; apply Hi; by right.
  - destruct (decide (P x)) as [p|np].
    + destruct nq. apply Hi; [by left|done].
    + apply IH. intros y Hy; apply Hi; by right.
Qed.

Lemma removed_not_of_type ty f d :
  owns ty f (validators d) →
  not_of_type ty (validators (removed f d)) = not_of_type ty (validators d).
Proof.
  intros Ow. unfold removed. destruct (ToBoolean f) eqn:T; [|done]. simpl.
  apply filter_filter_implied. intros e He Ty.
  destruct (strict_equal (Entry.validator e) f) eqn:S; [|done].
  destruct Ty. by apply Ow.
Qed.

Lemma not_of_type_push ty e vs :
  Entry.type e = ty → not_of_type ty (vs ++ [e]) = not_of_type ty vs.
Proof.
  intros Te. unfold not_of_type. rewrite filter_app, filter_cons, filter_nil.
  destruct (decide _); [done|]. by rewrite app_nil_r.
Qed.

Lemma allocated_weaken h h' v : h ⊆ h' → allocated h v → allocated h' v.
Proof.
  intros Hsub Al l E. destruct (Al l E) as [o Ho]. exists o.
  by eapply lookup_weaken.
Qed.

Lemma allocated_not_fresh h v : allocated h v → v ≠ VObject (fresh (dom h)).
Proof.
  intros Al E. destruct (Al _ E) as [o Ho].
  assert (h !! fresh (dom h) = None) by apply not_elem_of_dom, is_fresh.
  congruence.
Qed.

Lemma removed_elem f d e : e ∈ validators (removed f d) → e ∈ validators d.
Proof. apply (sublist_subseteq _ _ (removed_validators f d)). Qed.

Lemma removed_gone f d e :
  ToBoolean f = true → e ∈ validators (removed f d) →
  strict_equal (Entry.validator e) f = false.
Proof.
  unfold removed. intros ->. simpl. by intros [? _]%list_elem_of_filter.
Qed.

(** What [min] does to the entries that are not its own, and to the rest
    of the field. *)
Lemma min_step x m σ :
  chain_ok σ →
  chain_ok (min x m σ).2
  ∧ not_of_type "min" (validators (this (min x m σ).2))
    = not_of_type "min" (validators (this σ))
  ∧ maxValidator (this (min x m σ).2) = maxValidator (this σ)
  ∧ path (this (min x m σ).2) = path (this σ).
Proof.
  intros (Omin & Omax & Amin & Amax & Aall).
  destruct (min x m σ) as [c σ'] eqn:E. apply min_outcome in E. simpl in *.
  destruct (removed_fields (minValidator (this σ)) (this σ)) as (Ep & Emin & Emax).
  pose proof (removed_not_of_type "min" _ _ Omin) as Ekeep.
  assert (∀ h', heap σ ⊆ h' →
    chain_ok (State (removed (minValidator (this σ)) (this σ)) h' (clock σ))) as Ok1.
  { intros h' Hsub. unfold chain_ok. simpl. rewrite Emin, Emax.
    split; [|split; [|split; [|split]]].
    - intros T e He S. by rewrite (removed_gone _ _ _ T He) in S.
    - intros T e He. apply Omax; [done|]. by eapply removed_elem.
    - by eapply allocated_weaken.
    - by eapply allocated_weaken.
    - intros e He. eapply allocated_weaken; [done|]. eapply Aall, removed_elem, He. }
  destruct (ToBoolean x).
  - destruct E as [(e & -> & Ed & Hsub)|(-> & h & msg & -> & Hsub & _)].
    + destruct σ' as [d' h' c']. simpl in *. subst d'.
      split; [|by rewrite Ekeep, Emax, Ep].
      destruct (Ok1 h' Hsub) as (? & ? & ? & ? & ?). done.
    + simpl. rewrite not_of_type_push by done. rewrite Ekeep, Emax, Ep.
      split; [|done]. destruct (Ok1 h Hsub) as (O1 & O2 & A1 & A2 & A3).
      simpl in *. unfold chain_ok. simpl.
      assert (h ⊆ <[fresh (dom h) := OFunction (FMinValidator x)]> h) as Hins
        by apply insert_subseteq, not_elem_of_dom, is_fresh.
      split; [|split; [|split; [|split]]].
      * intros _ e [He| ->%list_elem_of_singleton]%elem_of_app S; [|done].
        apply strict_equal_object in S. by apply (allocated_not_fresh _ _ (A3 e He)) in S.
      * intros T e [He| ->%list_elem_of_singleton]%elem_of_app S; [by apply O2|].
        simpl in S. exfalso. destruct (maxValidator (removed _ _)) eqn:Eg; try done.
        simpl in S. apply Pos.eqb_eq in S. subst l.
        by apply (allocated_not_fresh h (VObject (fresh (dom h)))).
      * intros l [= <-]. rewrite lookup_insert_eq. eauto.
      * by eapply allocated_weaken.
      * intros e [He| ->%list_elem_of_singleton]%elem_of_app.
        -- eapply allocated_weaken; [done|]. by apply A3.
        -- simpl. intros l [= <-]. rewrite lookup_insert_eq. eauto.
  - destruct E as (-> & ->). simpl. rewrite Ekeep, Emax, Ep.
    split; [|done]. by apply (Ok1 (heap σ)).
Qed.

Lemma max_unfold x m σ :
  max x m σ =
    (if ToBoolean x then
       text ← (if strict_equal x VDateNow then ret "Date.now()"
               else d ← cast x; Date_prototype_toString d);
       f ← alloc (OFunction (FMaxValidator x));
       self ← get_this;
       set_this (set_validators
         (validators self
          ++ [Entry.Build f
                (replace "{MAX}" text (or_default m messages_Date_max))
                "max" None (Some x)])
         (set_maxValidator f self))
     else ret ()) (without (maxValidator (this σ)) σ).
Proof.
  destruct σ as [d h ck]. unfold max, without, removed. rewrite bind_get_this.
  simpl. unfold bind at 1. by destruct (ToBoolean (maxValidator d)).
Qed.

(** What [max] does to the entries that are not its own, and to the rest
    of the field. *)
Lemma max_step x m σ :
  chain_ok σ →
  chain_ok (max x m σ).2
  ∧ not_of_type "max" (validators (this (max x m σ).2))
    = not_of_type "max" (validators (this σ))
  ∧ minValidator (this (max x m σ).2) = minValidator (this σ)
  ∧ path (this (max x m σ).2) = path (this σ).
Proof.
  intros (Omin & Omax & Amin & Amax & Aall).
  destruct (max x m σ) as [c σ'] eqn:E. apply max_outcome in E. simpl in *.
  destruct (removed_fields (maxValidator (this σ)) (this σ)) as (Ep & Emin & Emax).
  pose proof (removed_not_of_type "max" _ _ Omax) as Ekeep.
  assert (∀ h', heap σ ⊆ h' →
    chain_ok (State (removed (maxValidator (this σ)) (this σ)) h' (clock σ))) as Ok1.
  { intros h' Hsub. unfold chain_ok. simpl. rewrite Emin, Emax.
    split; [|split; [|split; [|split]]].
    - intros T e He. apply Omin; [done|]. by eapply removed_elem.
    - intros T e He S. by rewrite (removed_gone _ _ _ T He) in S.
    - by eapply allocated_weaken.
    - by eapply allocated_weaken.
    - intros e He. eapply allocated_weaken; [done|]. eapply Aall, removed_elem, He. }
  destruct (ToBoolean x).
  - destruct E as [(e & -> & Ed & Hsub)|(-> & h & msg & -> & Hsub & _)].
    + destruct σ' as [d' h' c']. simpl in *. subst d'.
      split; [|by rewrite Ekeep, Emin, Ep].
      destruct (Ok1 h' Hsub) as (? & ? & ? & ? & ?). done.
    + simpl. rewrite not_of_type_push by done. rewrite Ekeep, Emin, Ep.
      split; [|done]. destruct (Ok1 h Hsub) as (O1 & O2 & A1 & A2 & A3).
      simpl in *. unfold chain_ok. simpl.
      assert (h ⊆ <[fresh (dom h) := OFunction (FMaxValidator x)]> h) as Hins
        by apply insert_subseteq, not_elem_of_dom, is_fresh.
      split; [|split; [|split; [|split]]].
      * intros T e [He| ->%list_elem_of_singleton]%elem_of_app S; [by apply O1|].
        simpl in S. exfalso. destruct (minValidator (removed _ _)) eqn:Eg; try done.
        simpl in S. apply Pos.eqb_eq in S. subst l.
        by apply (allocated_not_fresh h (VObject (fresh (dom h)))).
      * intros _ e [He| ->%list_elem_of_singleton]%elem_of_app S; [|done].
        apply strict_equal_object in S. by apply (allocated_not_fresh _ _ (A3 e He)) in S.
      * by eapply allocated_weaken.
      * intros l [= <-]. rewrite lookup_insert_eq. eauto.
      * intros e [He| ->%list_elem_of_singleton]%elem_of_app.
        -- eapply allocated_weaken; [done|]. by apply A3.
        -- simpl. intros l [= <-]. rewrite lookup_insert_eq. eauto.
  - destruct E as (-> & ->). simpl. rewrite Ekeep, Emin, Ep.
    split; [|done]. by apply (Ok1 (heap σ)).
Qed.

Lemma run_calls_chain_ok cs σ : chain_ok σ → chain_ok (run_calls cs σ).
Proof.
  revert σ. induction cs as [|c cs IH]; intros σ Ok; [done|].
  simpl. apply IH. destruct c; [by apply min_step|by apply max_step].
Qed.

Lemma not_of_type_both vs :
  not_of_type "min" (not_of_type "max" vs) = not_of_type "max" (not_of_type "min" vs).
Proof. unfold not_of_type. induction vs as [|e vs IH]; [done|].
  rewrite !filter_cons. repeat (destruct (decide _); rewrite ?filter_cons); by rewrite ?IH.
Qed.

Lemma run_calls_others cs σ :
  chain_ok σ →
  not_of_type "min" (not_of_type "max" (validators (this (run_calls cs σ))))
  = not_of_type "min" (not_of_type "max" (validators (this σ)))
  ∧ path (this (run_calls cs σ)) = path (this σ).
Proof.
  revert σ. induction cs as [|c cs IH]; intros σ Ok; [done|]. simpl.
  destruct c as [x m|x m].
  - destruct (min_step x m σ Ok) as (Ok' & Ek & _ & Ep).
    destruct (IH _ Ok') as (E1 & E2). unfold perform. rewrite E1, E2.
    split; [|done]. by rewrite !not_of_type_both, Ek.
  - destruct (max_step x m σ Ok) as (Ok' & Ek & _ & Ep).
    destruct (IH _ Ok') as (E1 & E2). unfold perform. rewrite E1, E2.
    split; [|done]. by rewrite Ek.
Qed.

(** X11. [min] and [max] touch nothing but their own entry.  Start from a
    field whose bound closures sit in bound entries only and whose validators
    exist (a new field, or one with validators of other kinds).  After any
    sequence of calls of [min] and [max], returning or throwing, the entries
    of every other type are the ones the field started with, in their order,
    and the path is what it was; a further [min], whatever it is given and
    however it ends, leaves the "max" entry and [maxValidator] as they are,
    and a further [max] leaves the "min" entry and [minValidator]. *)
Theorem bounds_keep_other_validators (cs : list bound_call) σ0 :
  chain_ok σ0 →
  let σ := run_calls cs σ0 in
  not_of_type "min" (not_of_type "max" (validators (this σ)))
  = not_of_type "min" (not_of_type "max" (validators (this σ0)))
  ∧ path (this σ) = path (this σ0)
  ∧ (∀ x m,
       not_of_type "min" (validators (this (min x m σ).2))
       = not_of_type "min" (validators (this σ))
       ∧ maxValidator (this (min x m σ).2) = maxValidator (this σ))
  ∧ (∀ x m,
       not_of_type "max" (validators (this (max x m σ).2))
       = not_of_type "max" (validators (this σ))
       ∧ minValidator (this (max x m σ).2) = minValidator (this σ)).
Proof.
  intros Ok σ. destruct (run_calls_others cs σ0 Ok) as (Eo & Ep).
  pose proof (run_calls_chain_ok cs σ0 Ok) as Ok'. fold σ in Ok'.
  split; [done|]. split; [done|]. split; intros x m.
  - by destruct (min_step x m σ Ok') as (_ & ? & ? & _).
  - by destruct (max_step x m σ Ok') as (_ & ? & ? & _).
Qed.

Lemma not_DateNow x : x ≠ VDateNow → strict_equal x VDateNow = false.
Proof. by destruct x. Qed.

Lemma toString_cast_result x σ r σ1 :
  ToBoolean x = true → cast x σ = (Normal r, σ1) →
  ∃ text, Date_prototype_toString r σ1 = (Normal text, σ1).
Proof.
  intros T E. destruct (cast_bound _ _ _ _ T E) as (lr & tb & -> & Er & _).
  exists (Date_toString tb). unfold Date_prototype_toString, deref, bind.
  by rewrite Er.
Qed.

Lemma min_throws x m σ :
  (ToBoolean x = false ∨ x = VDateNow → ∃ σ1, min x m σ = (Normal (), σ1))
  ∧ (ToBoolean x = true → x ≠ VDateNow →
     match cast x (without (minValidator (this σ)) σ) with
     | (Throw e, σ1) =>
         min x m σ = (Throw e, σ1)
         ∧ this σ1 = removed (minValidator (this σ)) (this σ)
     | (Normal _, _) => ∃ σ1, min x m σ = (Normal (), σ1)
     end).
Proof.
  rewrite min_unfold. split.
  - intros [-> | ->]; by eexists.
  - intros T Hx. rewrite T, (not_DateNow _ Hx), bind_assoc.
    pose proof (frame_cast x (without (minValidator (this σ)) σ)) as (Ft & _).
    destruct (cast x _) as [[r|e] σ1] eqn:EC; simpl in Ft.
    + rewrite (bind_run _ _ _ _ _ EC).
      destruct (toString_cast_result _ _ _ _ T EC) as (text & ET).
      rewrite (bind_run _ _ _ _ _ ET). by eexists.
    + split; [by apply bind_throw|done].
Qed.

Lemma max_throws x m σ :
  (ToBoolean x = false ∨ x = VDateNow → ∃ σ1, max x m σ = (Normal (), σ1))
  ∧ (ToBoolean x = true → x ≠ VDateNow →
     match cast x (without (maxValidator (this σ)) σ) with
     | (Throw e, σ1) =>
         max x m σ = (Throw e, σ1)
         ∧ this σ1 = removed (maxValidator (this σ)) (this σ)
     | (Normal _, _) => ∃ σ1, max x m σ = (Normal (), σ1)
     end).
Proof.
  rewrite max_unfold. split.
  - intros [-> | ->]; by eexists.
  - intros T Hx. rewrite T, (not_DateNow _ Hx), bind_assoc.
    pose proof (frame_cast x (without (maxValidator (this σ)) σ)) as (Ft & _).
    destruct (cast x _) as [[r|e] σ1] eqn:EC; simpl in Ft.
    + rewrite (bind_run _ _ _ _ _ EC).
      destruct (toString_cast_result _ _ _ _ T EC) as (text & ET).
      rewrite (bind_run _ _ _ _ _ ET). by eexists.
    + split; [by apply bind_throw|done].
Qed.

(** X12. When [min] and [max] throw.  With a falsy argument or with
    [Date.now] they always return.  With any other truthy bound they cast it
    once, after the entry of the previous bound has been filtered out, and
    throw exactly when that cast throws, the same exception; the field is
    then left without an entry of that type, nothing is pushed, and
    [minValidator] (or [maxValidator]) still names the closure of the bound
    that was dropped. *)
Theorem bound_installation_fails_with_cast x m σ :
  bounds_ok (this σ) →
  (ToBoolean x = false ∨ x = VDateNow →
   (∃ σ1, min x m σ = (Normal (), σ1)) ∧ (∃ σ1, max x m σ = (Normal (), σ1)))
  ∧ (ToBoolean x = true → x ≠ VDateNow →
     match cast x (without (minValidator (this σ)) σ) with
     | (Throw e, σ1) =>
         min x m σ = (Throw e, σ1)
         ∧ of_type "min" (validators (this σ1)) = []
         ∧ minValidator (this σ1) = minValidator (this σ)
     | (Normal _, _) => ∃ σ1, min x m σ = (Normal (), σ1)
     end
     ∧ match cast x (without (maxValidator (this σ)) σ) with
       | (Throw e, σ1) =>
           max x m σ = (Throw e, σ1)
           ∧ of_type "max" (validators (this σ1)) = []
           ∧ maxValidator (this σ1) = maxValidator (this σ)
       | (Normal _, _) => ∃ σ1, max x m σ = (Normal (), σ1)
       end).
Proof.
  intros Ok. split.
  - intros Hx. split; [by apply min_throws|by apply max_throws].
  - intros T Hx. split.
    + destruct (min_throws x m σ) as (_ & Hm). specialize (Hm T Hx).
      destruct (cast x _) as [[r|e] σ1]; [done|]. destruct Hm as (-> & ->).
      split; [done|]. split; [by apply removed_min_ok|].
      by destruct (removed_fields (minValidator (this σ)) (this σ)) as (_ & ? & _).
    + destruct (max_throws x m σ) as (_ & Hm). specialize (Hm T Hx).
      destruct (cast x _) as [[r|e] σ1]; [done|]. destruct Hm as (-> & ->).
      split; [done|]. split; [by apply removed_max_ok|].
      by destruct (removed_fields (maxValidator (this σ)) (this σ)) as (_ & _ & ?).
Qed.

(** ** Bounds are inclusive *)

Lemma leb_refl (t : number) : is_nan t = false → (t <=? t)%float = true.
Proof.
  unfold is_nan. intros E. apply negb_false_iff in E.
  rewrite FloatAxioms.eqb_spec in E. rewrite FloatAxioms.leb_spec.
  unfold SFeqb in E. unfold SFleb. by destruct (SFcompare _ _) as [[]|].
Qed.

(** A cast that returned a Date returns a Date with the same time value
    in every larger heap. *)
Lemma cast_again v σ l (tv : number) σ' σ2 :
  cast v σ = (Normal (VObject l), σ') → heap σ' !! l = Some (ODate tv) →
  heap σ ⊆ heap σ2 →
  ∃ l2 σ2', cast v σ2 = (Normal (VObject l2), σ2')
    ∧ heap σ2' !! l2 = Some (ODate tv) ∧ heap σ2 ⊆ heap σ2'.
Proof.
  rewrite !cast_unfold. destruct (_ || _); [done|].
  intros E El Hsub. apply cast_object_normal in E
    as [(l' & tv' & -> & El' & Hn & [= ->] & ->)
       |(ED & NB & x & tv' & EA & ET & Hn & [= ->] & ->)].
  - assert (tv' = tv) as -> by congruence.
    eexists _, σ2. split; [|split; [by eapply lookup_weaken|done]].
    apply (cast_object_Date_run _ _ tv); [by eapply lookup_weaken|done].
  - simpl in El. rewrite lookup_insert_eq in El. injection El as <-.
    eexists _, _. split; [|split].
    + apply (cast_object_construct_run _ _ x tv'); try done.
      all: eapply stable_use; [auto with stable nocore|eassumption|eassumption].
    + simpl. by rewrite lookup_insert_eq.
    + simpl. apply insert_subseteq, alloc_fresh.
Qed.

(** X13. Bounds are inclusive.  The Date that [cast] makes of a literal
    bound [x] passes the closure that [min(x)] installs and the closure that
    [max(x)] installs, evaluated one after the other once the cast is
    done. *)
Theorem literal_bound_is_inclusive x σ f g r σ1 :
  ToBoolean x = true → x ≠ VDateNow →
  heap σ !! f = Some (OFunction (FMinValidator x)) →
  heap σ !! g = Some (OFunction (FMaxValidator x)) →
  cast x σ = (Normal r, σ1) →
  ∃ σ2 σ3,
    call (VObject f) r σ1 = (Normal (VBool true), σ2)
    ∧ call (VObject g) r σ2 = (Normal (VBool true), σ3).
Proof.
  intros T Hx Ef Eg EC.
  pose proof EC as EC'. apply cast_normal in EC'
    as [(N & _)|(_ & l & tv & -> & El & Hn & Hsub & _)];
    [by apply truthy_not_null_like in T|].
  destruct (cast_again _ _ _ _ _ σ1 EC El Hsub) as (l2 & σ2 & EC2 & El2 & Hsub2).
  assert (heap σ ⊆ heap σ2) as Hsub02 by (by etrans).
  destruct (cast_again _ _ _ _ _ σ2 EC El Hsub02) as (l3 & σ3 & EC3 & El3 & Hsub3).
  exists σ2, σ3. split.
  - rewrite (call_closure _ _ _ _ (lookup_weaken _ _ _ _ Ef Hsub)).
    unfold minValidator_call. rewrite (not_DateNow _ Hx).
    rewrite (bind_run _ _ _ _ _ EC2). simpl.
    rewrite (bind_run _ _ _ _ _ (valueOf_Date _ _ _ (lookup_weaken _ _ _ _ El Hsub2))).
    rewrite (bind_run _ _ _ _ _ (valueOf_Date _ _ _ El2)).
    unfold greater_equal, compare_with, ToPrimitive, ToNumber, deref, bind, ret.
    simpl. by rewrite leb_refl.
  - rewrite (call_closure _ _ _ _ (lookup_weaken _ _ _ _ Eg Hsub02)).
    unfold maxValidator_call. rewrite (not_DateNow _ Hx).
    rewrite (bind_run _ _ _ _ _ EC3). simpl.
    assert (heap σ1 ⊆ heap σ3) as Hsub13 by (by etrans).
    rewrite (bind_run _ _ _ _ _ (valueOf_Date _ _ _ (lookup_weaken _ _ _ _ El Hsub13))).
    rewrite (bind_run _ _ _ _ _ (valueOf_Date _ _ _ El3)).
    unfold less_equal, compare_with, ToPrimitive, ToNumber, deref, bind, ret.
    simpl. by rewrite leb_refl.
Qed.

(** ** The dispatch of [castForQuery] *)

Lemma conditionalHandlers_inherited op :
  op ∉ ["$gt"; "$gte"; "$lt"; "$lte"] →
  conditionalHandlers !! op = SchemaType_conditionalHandlers !! op.
Proof.
  intros Hop. unfold conditionalHandlers, utils_options.
  apply lookup_union_r.
  rewrite !lookup_insert_ne; [apply lookup_empty|..];
    intros <-; apply Hop; set_solver.
Qed.

(** X14. How [castForQuery] dispatches.  With two arguments and a string
    operator it uses the handler of SchemaType when the operator is none of
    [$gt], [$gte], [$lt], [$lte] and SchemaType has one, and throws the usage
    Error exactly when neither has one.  A Symbol as operator finds no
    handler, and building the message of the usage Error then throws a
    TypeError instead.  With any other number of arguments the operators
    are not consulted: the first argument, [undefined] when there is none,
    goes to [_castForQuery], so that a lone ["$gt"] is a value. *)
Theorem castForQuery_dispatch σ :
  (∀ (op : string) val, op ∉ ["$gt"; "$gte"; "$lt"; "$lte"] →
     castForQuery [VString op; val] σ =
       match SchemaType_conditionalHandlers !! op with
       | Some handler => handler val σ
       | None => (Throw (Error ("Can't use " ++ op ++ " with Date.")), σ)
       end)
  ∧ (∀ id val, castForQuery [VSymbol id; val] σ = (Throw TypeError, σ))
  ∧ (∀ args, length args ≠ 2 →
       castForQuery args σ = SchemaType_castForQuery (hd VUndefined args) σ).
Proof.
  split; [|split].
  - intros op val Hop. unfold castForQuery.
    rewrite (bind_run _ _ _ _ _ (ToPropertyKey_string op σ)).
    rewrite (conditionalHandlers_inherited _ Hop).
    destruct (_ !! op); [done|].
    by rewrite (bind_run _ _ _ _ _ (usage_message_string op σ)).
  - done.
  - intros [|a [|b [|c args]]] Hl; done.
Qed.

(** ** Candidates that are no point in time *)

Lemma Prim2SF_nan (t : number) : is_nan t = true → Prim2SF t = S754_nan.
Proof.
  unfold is_nan. intros E. apply negb_true_iff in E.
  rewrite FloatAxioms.eqb_spec in E. unfold SFeqb in E.
  destruct (Prim2SF t) as [s|s| |s m e]; try done; simpl in E.
  - by destruct s.
  - rewrite Z.compare_refl, Pos.compare_cont_refl in E. by destruct s.
Qed.

Lemma leb_nan (a t : number) :
  is_nan t = true → (a <=? t)%float = false ∧ (t <=? a)%float = false.
Proof.
  intros E. rewrite !FloatAxioms.leb_spec, (Prim2SF_nan _ E). unfold SFleb.
  split; [by destruct (Prim2SF a)|done].
Qed.

Lemma minValidator_call_Date x σ l (tv tb : number) σ' :
  heap σ !! l = Some (ODate tv) → resolves x σ tb σ' →
  minValidator_call x (VObject l) σ = (Normal (VBool (tb <=? tv)%float), σ').
Proof.
  intros El [(-> & -> & ->)|(Hx & lr & EC & Er)]; unfold minValidator_call.
  - simpl. unfold bind at 1. simpl.
    rewrite (bind_run _ _ _ _ _ (valueOf_Date _ _ _ El)). reflexivity.
  - rewrite (not_DateNow _ Hx), (bind_run _ _ _ _ _ EC). simpl.
    destruct (frame_cast x σ) as (_ & _ & Hsub). rewrite EC in Hsub.
    rewrite (bind_run _ _ _ _ _ (valueOf_Date _ _ _ (lookup_weaken _ _ _ _ El Hsub))).
    rewrite (bind_run _ _ _ _ _ (valueOf_Date _ _ _ Er)). reflexivity.
Qed.

Lemma maxValidator_call_Date x σ l (tv tb : number) σ' :
  heap σ !! l = Some (ODate tv) → resolves x σ tb σ' →
  maxValidator_call x (VObject l) σ = (Normal (VBool (tv <=? tb)%float), σ').
Proof.
  intros El [(-> & -> & ->)|(Hx & lr & EC & Er)]; unfold maxValidator_call.
  - simpl. unfold bind at 1. simpl.
    rewrite (bind_run _ _ _ _ _ (valueOf_Date _ _ _ El)). reflexivity.
  - rewrite (not_DateNow _ Hx), (bind_run _ _ _ _ _ EC). simpl.
    destruct (frame_cast x σ) as (_ & _ & Hsub). rewrite EC in Hsub.
    rewrite (bind_run _ _ _ _ _ (valueOf_Date _ _ _ (lookup_weaken _ _ _ _ El Hsub))).
    rewrite (bind_run _ _ _ _ _ (valueOf_Date _ _ _ Er)). reflexivity.
Qed.

(** X15. An invalid Date satisfies no bound.  Whenever the bound of an
    installed closure resolves, to the clock or to the Date cast from a
    literal, the closure of [min] and the closure of [max] both answer
    [false] for a Date instance whose time value is NaN, and do not throw. *)
Theorem invalid_Date_fails_every_bound x σ l (tv tb : number) σ' f :
  heap σ !! l = Some (ODate tv) → is_nan tv = true → resolves x σ tb σ' →
  (heap σ !! f = Some (OFunction (FMinValidator x)) →
   call (VObject f) (VObject l) σ = (Normal (VBool false), σ'))
  ∧ (heap σ !! f = Some (OFunction (FMaxValidator x)) →
   call (VObject f) (VObject l) σ = (Normal (VBool false), σ')).
Proof.
  intros El Hn R. destruct (leb_nan tb tv Hn) as (E1 & E2).
  split; intros Ef; rewrite (call_closure _ _ _ _ Ef).
  - by rewrite (minValidator_call_Date _ _ _ tv tb σ'), E1.
  - by rewrite (maxValidator_call_Date _ _ _ tv tb σ'), E2.
Qed.

(** ** The message of a bound *)

Lemma append_nil (s : string) : "" ++ s = s.
Proof. reflexivity. Qed.

Lemma append_cons c (s s' : string) : String c s ++ s' = String c (s ++ s').
Proof. reflexivity. Qed.

Lemma prefix_append pat post : String.prefix pat (pat ++ post) = true.
Proof.
  induction pat as [|a pat IH]; [by destruct post|].
  rewrite append_cons. simpl. by destruct (Ascii.ascii_dec a a).
Qed.

Lemma string_drop_append pat post :
  string_drop (String.length pat) (pat ++ post) = post.
Proof.
  induction pat as [|a pat IH]; [by destruct post|]. by rewrite append_cons.
Qed.

Lemma replace_eq pat rep s :
  replace pat rep s =
    if String.prefix pat s then rep ++ string_drop (String.length pat) s
    else match s with
         | "" => ""
         | String c s' => String c (replace pat rep s')
         end.
Proof. by destruct s. Qed.

Lemma replace_first pat rep pre post :
  occurs_before pat (String.length pre) (pre ++ pat ++ post) = false →
  replace pat rep (pre ++ pat ++ post) = pre ++ rep ++ post.
Proof.
  induction pre as [|c pre IH].
  - intros _. rewrite !append_nil.
    by rewrite replace_eq, prefix_append, string_drop_append.
  - rewrite !append_cons. intros Ho. rewrite replace_eq.
    change (String.length (String c pre)) with (S (String.length pre)) in Ho.
    cbn [occurs_before] in Ho. apply orb_false_iff in Ho as [Hp Ho].
    rewrite Hp. by rewrite IH.
Qed.

Lemma replace_absent pat rep s : occurs pat s = false → replace pat rep s = s.
Proof.
  induction s as [|c s IH]; cbn [occurs]; intros [Hp Ho]%orb_false_iff;
    rewrite replace_eq, Hp; [done|]. by rewrite IH.
Qed.

Lemma min_message x m σ σ1 :
  min x m σ = (Normal (), σ1) → ToBoolean x = true →
  ∃ e text,
    last (validators (this σ1)) = Some e
    ∧ bound_text x (without (minValidator (this σ)) σ) text
    ∧ Entry.message e = replace "{MIN}" text (or_default m messages_Date_min).
Proof.
  rewrite min_unfold. intros E T. rewrite T in E.
  destruct (strict_equal x VDateNow) eqn:DN.
  - apply strict_equal_DateNow in DN as ->. injection E as <-.
    eexists _, _. simpl. rewrite last_snoc. split; [done|]. split; [|done].
    by left.
  - rewrite bind_assoc in E. apply bind_normal in E as (r & σ' & EC & E).
    destruct (cast_bound _ _ _ _ T EC) as (lr & tb & -> & Er & _).
    unfold Date_prototype_toString, deref in E. unfold bind at 1 2 in E.
    rewrite Er in E. simpl in E. injection E as <-.
    eexists _, _. simpl. rewrite last_snoc. split; [done|]. split; [|done].
    right. split; [by intros ->|]. eauto 10.
Qed.

Lemma max_message x m σ σ1 :
  max x m σ = (Normal (), σ1) → ToBoolean x = true →
  ∃ e text,
    last (validators (this σ1)) = Some e
    ∧ bound_text x (without (maxValidator (this σ)) σ) text
    ∧ Entry.message e = replace "{MAX}" text (or_default m messages_Date_max).
Proof.
  rewrite max_unfold. intros E T. rewrite T in E.
  destruct (strict_equal x VDateNow) eqn:DN.
  - apply strict_equal_DateNow in DN as ->. injection E as <-.
    eexists _, _. simpl. rewrite last_snoc. split; [done|]. split; [|done].
    by left.
  - rewrite bind_assoc in E. apply bind_normal in E as (r & σ' & EC & E).
    destruct (cast_bound _ _ _ _ T EC) as (lr & tb & -> & Er & _).
    unfold Date_prototype_toString, deref in E. unfold bind at 1 2 in E.
    rewrite Er in E. simpl in E. injection E as <-.
    eexists _, _. simpl. rewrite last_snoc. split; [done|]. split; [|done].
    right. split; [by intros ->|]. eauto 10.
Qed.

(** X16. The message of a bound.  When [min(x, message)] returns for a
    truthy [x], the entry it pushed last carries the template, which is
    [message] unless that is absent or empty and the default of the library
    then, with its first [{MIN}] replaced by the text of the bound:
    ["Date.now()"] for [Date.now], the string form of the cast Date
    otherwise.  A later [{MIN}] stays, and a template without the token is
    kept as it is.  The same holds for [max] and [{MAX}]. *)
Theorem bound_message_substitution x m σ σ1 :
  ToBoolean x = true →
  (min x m σ = (Normal (), σ1) →
   ∃ e text,
     last (validators (this σ1)) = Some e
     ∧ bound_text x (without (minValidator (this σ)) σ) text
     ∧ (∀ pre post,
          or_default m messages_Date_min = pre ++ "{MIN}" ++ post →
          occurs_before "{MIN}" (String.length pre) (pre ++ "{MIN}" ++ post) = false →
          Entry.message e = pre ++ text ++ post)
     ∧ (occurs "{MIN}" (or_default m messages_Date_min) = false →
        Entry.message e = or_default m messages_Date_min))
  ∧ (max x m σ = (Normal (), σ1) →
   ∃ e text,
     last (validators (this σ1)) = Some e
     ∧ bound_text x (without (maxValidator (this σ)) σ) text
     ∧ (∀ pre post,
          or_default m messages_Date_max = pre ++ "{MAX}" ++ post →
          occurs_before "{MAX}" (String.length pre) (pre ++ "{MAX}" ++ post) = false →
          Entry.message e = pre ++ text ++ post)
     ∧ (occurs "{MAX}" (or_default m messages_Date_max) = false →
        Entry.message e = or_default m messages_Date_max)).
Proof.
  intros T. split; intros E.
  - destruct (min_message _ _ _ _ E T) as (e & text & El & Bt & Em).
    exists e, text. split; [done|]. split; [done|]. rewrite Em. split.
    + intros pre post -> Ho. by apply replace_first.
    + apply replace_absent.
  - destruct (max_message _ _ _ _ E T) as (e & text & El & Bt & Em).
    exists e, text. split; [done|]. split; [done|]. rewrite Em. split.
    + intros pre post -> Ho. by apply replace_first.
    + apply replace_absent.
Qed.

End Properties.

(** * The properties on the sample host *)

#[local] Existing Instance Sample.host.
#[local] Existing Instance Sample.base.

(** [cast(0)] is the epoch and [cast(1000)] one second later. *)
Example cast_zero :
  cast (VNumber 0%float) Sample.start
  = (Normal (VObject 1%positive),
     State Sample.field (<[1%positive := ODate 0%float]> ∅) 1000%float).
Proof. vm_compute. reflexivity. Qed.

Example cast_thousand :
  cast (VNumber 1000%float) Sample.start
  = (Normal (VObject 1%positive),
     State Sample.field (<[1%positive := ODate 1000%float]> ∅) 1000%float).
Proof. vm_compute. reflexivity. Qed.

(** A number out of the range of time values is rejected, as a number and
    as a string of digits. *)
Example cast_out_of_range :
  (cast (VNumber 1e16%float) Sample.start).1
  = Throw (CastError "date" (VNumber 1e16%float) "d")
  ∧ (cast (VString "10000000000000000") Sample.start).1
  = Throw (CastError "date" (VString "10000000000000000") "d").
Proof. split; vm_compute; reflexivity. Qed.

Lemma cast_epoch_string_witness :
  cast (VString "1000000") Sample.start
  = (Normal (VObject 1%positive),
     State Sample.field (<[1%positive := ODate 1000000%float]> ∅) 1000%float).
Proof.
  destruct (cast_epoch_string "1000000" Sample.start) as (_ & E & _);
    [vm_compute; reflexivity|left; vm_compute; reflexivity|].
  rewrite E. vm_compute. reflexivity.
Defined.

Lemma cast_Date_identity_witness :
  cast (VObject 2%positive) Sample.early
  = (Normal (VObject 2%positive), Sample.early).
Proof.
  rewrite (cast_Date_identity Sample.early 2%positive 5000%float); reflexivity.
Defined.

Lemma cast_empty_inputs_witness :
  cast VNull Sample.start = (Normal VNull, Sample.start)
  ∧ cast VUndefined Sample.start = (Normal VNull, Sample.start)
  ∧ cast (VString "") Sample.start = (Normal VNull, Sample.start).
Proof. exact (proj1 (cast_empty_inputs Sample.start)). Defined.

Lemma bound_validators_unique_witness :
  (count_type "min" (this (run_calls Sample.calls Sample.start)) ≤ 1)%nat
  ∧ (count_type "max" (this (run_calls Sample.calls Sample.start)) ≤ 1)%nat.
Proof.
  apply (bound_validators_unique Sample.calls Sample.start).
  unfold bounds_ok, tracked.
  split; [vm_compute; lia|]. split; [vm_compute; lia|].
  split; intros e He; by apply elem_of_nil in He.
Defined.

(** [min(Date.now)] on the sample field, and the closure it installed
    applied to the Date at 5000 ms when the clock reads 1000 ms and when it
    reads 9000 ms: the answer follows the clock of the evaluation.  Then
    [max(86400000)]: each evaluation casts the literal anew. *)
Lemma bound_predicate_compares_witness :
  (∃ f,
     minValidator (this (min VDateNow None Sample.early).2) = VObject f
     ∧ call (VObject f) (VObject 2%positive)
         (at_time 1000%float (min VDateNow None Sample.early).2)
       = (Normal (VBool true), at_time 1000%float (min VDateNow None Sample.early).2)
     ∧ call (VObject f) (VObject 2%positive)
         (at_time 9000%float (min VDateNow None Sample.early).2)
       = (Normal (VBool false), at_time 9000%float (min VDateNow None Sample.early).2))
  ∧ (∃ g,
     maxValidator (this (max (VNumber 86400000%float) None Sample.early).2) = VObject g
     ∧ call (VObject g) (VObject 2%positive)
         (max (VNumber 86400000%float) None Sample.early).2
       = (Normal (VBool true),
          with_Date 86400000%float (max (VNumber 86400000%float) None Sample.early).2)).
Proof.
  split.
  - destruct (bound_predicate_compares VDateNow None Sample.early
                (min VDateNow None Sample.early).2 eq_refl) as (Hmin & _).
    destruct (Hmin eq_refl) as (f & msg & Hf & _ & _ & Ef & Hc).
    exists f. split; [exact Hf|]. split.
    + exact (Hc (at_time 1000%float (min VDateNow None Sample.early).2)
               2%positive 5000%float Ef eq_refl).
    + exact (Hc (at_time 9000%float (min VDateNow None Sample.early).2)
               2%positive 5000%float Ef eq_refl).
  - destruct (bound_predicate_compares (VNumber 86400000%float) None Sample.early
                (max (VNumber 86400000%float) None Sample.early).2 eq_refl) as (_ & Hmax).
    destruct (Hmax eq_refl) as (g & msg & Hg & _ & _ & Eg & Hc).
    exists g. split; [exact Hg|].
    specialize (Hc (max (VNumber 86400000%float) None Sample.early).2
                  2%positive 5000%float Eg eq_refl).
    vm_compute in Hg. injection Hg as <-.
    destruct Hc as (lr & tb & Hr & Hb & Hc). rewrite Hc.
    vm_compute in Hr. injection Hr as <-.
    vm_compute in Hb. injection Hb as <-.
    vm_compute. reflexivity.
Defined.

(** [min(86400000)] on the sample field: [null] passes in the world the
    installation left. *)
Lemma bound_predicate_accepts_null_witness :
  ∃ f σ3,
    minValidator (this (min (VNumber 86400000%float) None Sample.start).2) = VObject f
    ∧ call (VObject f) VNull (min (VNumber 86400000%float) None Sample.start).2
      = (Normal (VBool true), σ3).
Proof.
  destruct (bound_predicate_accepts_null (VNumber 86400000%float) None Sample.start
              (min (VNumber 86400000%float) None Sample.start).2 eq_refl) as (Hmin & _).
  destruct (Hmin eq_refl) as (f & Hf & _ & _ & Hn).
  destruct (Hn (min (VNumber 86400000%float) None Sample.start).2) as (σ3 & Hc);
    [reflexivity|].
  by exists f, σ3.
Defined.

(** C7 as it is stated fails on [min(d); d.setTime(NaN)] for the Date [d]
    of the sample heap: before the Date is changed the closure answers
    [true] for [null]; afterwards the cast of the bound fails and the
    closure throws its CastError for [null]. *)
Lemma null_fails_after_setTime :
  ((min (VObject 2%positive) None;;
    (self ← get_this; call (minValidator self) VNull)) Sample.early).1
  = Normal (VBool true)
  ∧ ((min (VObject 2%positive) None;;
      (Date_setTime (VObject 2%positive) nan;;
       (self ← get_this; call (minValidator self) VNull))) Sample.early).1
    = Throw (CastError "date" (VObject 2%positive) "d").
Proof. split; vm_compute; reflexivity. Qed.

Lemma castForQuery_two_arguments_witness :
  castForQuery [VString "$gt"; VString "1000000"] Sample.start
  = cast (VString "1000000") Sample.start
  ∧ castForQuery [VString "$regex"; VNull] Sample.start
  = (Throw (Error "Can't use $regex with Date."), Sample.start).
Proof.
  split.
  - apply (castForQuery_two_arguments "$gt" (VString "1000000") Sample.start).
    by left.
  - apply (castForQuery_two_arguments "$regex" VNull Sample.start).
    vm_compute. reflexivity.
Defined.

Lemma cast_boxed_Boolean_witness :
  cast (VObject 3%positive) Sample.early
  = (Normal (VObject 6%positive),
     State Sample.field (<[6%positive := ODate 1%float]> Sample.objects)
       1000%float).
Proof.
  rewrite (cast_boxed_Boolean Sample.early 3%positive true); reflexivity.
Defined.

(** [max(Date.now)] on the sample field: [undefined] cannot be read. *)
Lemma bound_predicate_undefined_throws_witness :
  ∃ g σ3,
    maxValidator (this (max VDateNow None Sample.start).2) = VObject g
    ∧ call (VObject g) VUndefined (max VDateNow None Sample.start).2
      = (Throw TypeError, σ3).
Proof.
  destruct (bound_predicate_undefined_throws VDateNow None Sample.start
              (max VDateNow None Sample.start).2 eq_refl) as (_ & Hmax).
  destruct (Hmax eq_refl) as (g & Hg & _ & _ & Hn).
  destruct (Hn (max VDateNow None Sample.start).2) as (σ3 & Hc); [reflexivity|].
  by exists g, σ3.
Defined.

(** C10 as it is stated fails on [max(d); d.setTime(NaN)] for the Date [d]
    of the sample heap: afterwards the closure throws, for [undefined], the
    CastError of its bound and no TypeError. *)
Lemma undefined_after_setTime_throws_CastError :
  ((max (VObject 2%positive) None;;
    (self ← get_this; call (maxValidator self) VUndefined)) Sample.early).1
  = Throw TypeError
  ∧ ((max (VObject 2%positive) None;;
      (Date_setTime (VObject 2%positive) nan;;
       (self ← get_this; call (maxValidator self) VUndefined))) Sample.early).1
    = Throw (CastError "date" (VObject 2%positive) "d").
Proof. split; vm_compute; reflexivity. Qed.


(** * The further properties on sample inputs *)

Lemma cast_returns_null_or_valid_Date_witness :
  VObject 1%positive = VNull
  ∨ ∃ l tv, VObject 1%positive = VObject l
      ∧ heap (cast (VNumber 1000%float) Sample.start).2 !! l = Some (ODate tv)
      ∧ is_nan tv = false.
Proof.
  apply (cast_returns_null_or_valid_Date (VNumber 1000%float) Sample.start).
  vm_compute. reflexivity.
Defined.

Lemma cast_idempotent_witness :
  cast (VObject 1%positive) (cast (VNumber 1000%float) Sample.start).2
  = (Normal (VObject 1%positive), (cast (VNumber 1000%float) Sample.start).2).
Proof.
  apply (cast_idempotent (VNumber 1000%float) Sample.start).
  vm_compute. reflexivity.
Defined.

Lemma cast_allocates_at_most_one_Date_witness :
  this (cast (VString "never") Sample.start).2 = this Sample.start
  ∧ clock (cast (VString "never") Sample.start).2 = clock Sample.start
  ∧ (heap (cast (VString "never") Sample.start).2 = heap Sample.start
     ∨ ∃ tv, heap Sample.start !! fresh (dom (heap Sample.start)) = None
         ∧ heap (cast (VString "never") Sample.start).2
           = <[fresh (dom (heap Sample.start)) := ODate tv]> (heap Sample.start)
         ∧ Throw (CastError "date" (VString "never") "d")
           = if is_nan tv
             then Throw (CastError "date" (VString "never")
                           (path (this Sample.start)))
             else Normal (VObject (fresh (dom (heap Sample.start))))).
Proof.
  apply (cast_allocates_at_most_one_Date (VString "never") Sample.start
           (Throw (CastError "date" (VString "never") "d"))
           (cast (VString "never") Sample.start).2).
  - reflexivity.
  - vm_compute. reflexivity.
Defined.


Lemma cast_number_witness :
  cast (VObject 3%positive) Cases.world
  = (Normal (VObject 12%positive), with_Date 86400000%float Cases.world).
Proof.
  destruct (cast_number 86400000%float (VObject 3%positive) Cases.world) as (E & _).
  - right. exists 3%positive. split; reflexivity.
  - rewrite E. vm_compute. reflexivity.
Defined.

Lemma cast_calendar_string_witness :
  @cast Cases.host (VString "2020") Cases.world
  = (Normal (VObject 12%positive), with_Date 1577836800000%float Cases.world).
Proof.
  rewrite (@cast_calendar_string Cases.host "2020" Cases.world);
    [|done|vm_compute; reflexivity].
  vm_compute. reflexivity.
Defined.

Lemma cast_boxed_String_witness :
  @cast Cases.host (VObject 4%positive) Cases.world
  = (Normal (VObject 12%positive), with_Date 1577836800000%float Cases.world).
Proof.
  rewrite (@cast_boxed_String Cases.host Cases.world 4%positive "2020");
    [|reflexivity].
  vm_compute. reflexivity.
Defined.

Lemma cast_through_valueOf_witness :
  cast (VObject 5%positive) Cases.world
  = (Normal (VObject 12%positive), with_Date 1000%float Cases.world)
  ∧ cast (VObject 6%positive) Cases.world
  = (Normal (VObject 12%positive), with_Date 5000%float Cases.world).
Proof.
  split.
  - destruct (cast_through_valueOf Cases.world 5%positive (VNumber 1000%float) None)
      as (E & _); [reflexivity|].
    rewrite (E 1000%float eq_refl). vm_compute. reflexivity.
  - destruct (cast_through_valueOf Cases.world 6%positive (VObject 2%positive) None)
      as (_ & E); [reflexivity|].
    destruct (E 2%positive 5000%float eq_refl eq_refl) as (-> & _).
    vm_compute. reflexivity.
Defined.

Lemma cast_without_valueOf_witness :
  cast (VObject 7%positive) Cases.world = (Throw TypeError, Cases.world)
  ∧ @cast Cases.host (VObject 8%positive) Cases.world
  = (Normal (VObject 12%positive), with_Date 1577836800000%float Cases.world).
Proof.
  split.
  - by apply (cast_without_valueOf Cases.world).
  - destruct (@cast_without_valueOf Cases.host Cases.world) as (_ & _ & E).
    rewrite (E 8%positive "2020" eq_refl). vm_compute. reflexivity.
Defined.

Lemma checkRequired_after_cast_witness :
  checkRequired (VObject 12%positive) (cast (VObject 5%positive) Cases.world).2
  = (Normal true, (cast (VObject 5%positive) Cases.world).2).
Proof.
  apply (checkRequired_after_cast (VObject 5%positive) Cases.world
           (VObject 12%positive)).
  vm_compute. reflexivity.
Defined.

Lemma chain_ok_world : chain_ok Cases.world.
Proof.
  unfold chain_ok, owns, allocated. simpl.
  split; [done|]. split; [done|]. split; [done|]. split; [done|].
  intros e ->%list_elem_of_singleton l [= <-]. by eexists.
Qed.

Lemma bounds_keep_other_validators_witness :
  not_of_type "min" (not_of_type "max"
    (validators (this (run_calls Sample.calls Cases.world))))
  = [Cases.required]
  ∧ path (this (run_calls Sample.calls Cases.world)) = "d".
Proof.
  destruct (bounds_keep_other_validators Sample.calls Cases.world chain_ok_world)
    as (E & P & _).
  split; [by rewrite E|by rewrite P].
Defined.

Lemma bounds_ok_world : bounds_ok (this Cases.world).
Proof.
  unfold bounds_ok, tracked. split; [vm_compute; lia|]. split; [vm_compute; lia|].
  split; intros e ->%list_elem_of_singleton; done.
Qed.

Lemma bound_installation_fails_with_cast_witness :
  min (VString "never") None (min (VNumber 5%float) None Cases.world).2
  = (Throw (CastError "date" (VString "never") "d"),
     (min (VString "never") None (min (VNumber 5%float) None Cases.world).2).2)
  ∧ of_type "min"
      (validators
         (this (min (VString "never") None
                  (min (VNumber 5%float) None Cases.world).2).2)) = []
  ∧ minValidator
      (this (min (VString "never") None
               (min (VNumber 5%float) None Cases.world).2).2)
    = VObject 13%positive.
Proof.
  destruct (bound_installation_fails_with_cast (VString "never") None
              (min (VNumber 5%float) None Cases.world).2
              (min_preserves _ _ _ bounds_ok_world)) as (_ & Hf).
  destruct (Hf eq_refl) as (Hmin & _); [done|].
  destruct (cast (VString "never") _) as [[r|e] σ1] eqn:EC;
    [by vm_compute in EC|].
  destruct Hmin as (E & E0 & Ev). rewrite E. simpl. rewrite E0, Ev.
  assert (e = CastError "date" (VString "never") "d") as ->
    by (vm_compute in EC; congruence).
  split; [done|]. split; [done|]. vm_compute. reflexivity.
Defined.

Lemma literal_bound_is_inclusive_witness :
  ∃ σ2 σ3,
    call (VObject 9%positive) (VObject 12%positive)
      (cast (VNumber 5000%float) Cases.world).2
    = (Normal (VBool true), σ2)
    ∧ call (VObject 10%positive) (VObject 12%positive) σ2
    = (Normal (VBool true), σ3).
Proof.
  apply (literal_bound_is_inclusive (VNumber 5000%float) Cases.world);
    first [done | vm_compute; reflexivity].
Defined.

Lemma invalid_Date_fails_every_bound_witness :
  call (VObject 9%positive) (VObject 1%positive) Cases.world
  = (Normal (VBool false), (cast (VNumber 5000%float) Cases.world).2)
  ∧ call (VObject 10%positive) (VObject 1%positive) Cases.world
  = (Normal (VBool false), (cast (VNumber 5000%float) Cases.world).2).
Proof.
  assert (resolves (VNumber 5000%float) Cases.world 5000%float
            (cast (VNumber 5000%float) Cases.world).2) as R.
  { right. split; [done|]. exists 12%positive. split; vm_compute; reflexivity. }
  split.
  - destruct (invalid_Date_fails_every_bound (VNumber 5000%float) Cases.world
                1%positive nan 5000%float _ 9%positive eq_refl eq_refl R)
      as (Hmin & _).
    apply Hmin. reflexivity.
  - destruct (invalid_Date_fails_every_bound (VNumber 5000%float) Cases.world
                1%positive nan 5000%float _ 10%positive eq_refl eq_refl R)
      as (_ & Hmax).
    apply Hmax. reflexivity.
Defined.

(** On the sample library: the existence check is an inherited handler and
    answers its operand uncast; [$eq] casts through the inherited handler;
    a Symbol is no operator; a lone ["$gt"] is a value to cast, and no
    date. *)
Lemma castForQuery_dispatch_witness :
  castForQuery [VString "$exists"; VBool true] Sample.start
  = (Normal (VBool true), Sample.start)
  ∧ castForQuery [VString "$eq"; VString "1000000"] Sample.start
    = cast (VString "1000000") Sample.start
  ∧ castForQuery [VSymbol 0; VNull] Sample.start = (Throw TypeError, Sample.start)
  ∧ (castForQuery [VString "$gt"] Sample.start).1
    = Throw (CastError "date" (VString "$gt") "d").
Proof.
  destruct (castForQuery_dispatch Sample.start) as (E1 & E2 & E3).
  split; [|split; [|split]].
  - rewrite E1; [reflexivity|]. intros Hin.
    repeat (apply elem_of_cons in Hin as [?|Hin]; [done|]).
    by apply elem_of_nil in Hin.
  - rewrite E1; [reflexivity|]. intros Hin.
    repeat (apply elem_of_cons in Hin as [?|Hin]; [done|]).
    by apply elem_of_nil in Hin.
  - apply E2.
  - rewrite E3; [|done]. vm_compute. reflexivity.
Defined.

Lemma bound_message_substitution_witness :
  ∃ e,
    last (validators
            (this (min VDateNow (Some "{PATH} is before {MIN}, not {MIN}")
                     Sample.start).2)) = Some e
    ∧ Entry.message e = "{PATH} is before Date.now(), not {MIN}".
Proof.
  destruct (bound_message_substitution VDateNow
              (Some "{PATH} is before {MIN}, not {MIN}") Sample.start
              (min VDateNow (Some "{PATH} is before {MIN}, not {MIN}")
                 Sample.start).2 eq_refl) as (Hm & _).
  destruct Hm as (e & text & El & [(_ & ->)|(Hx & _)] & Hs & _);
    [vm_compute; reflexivity| |done].
  exists e. split; [done|].
  apply (Hs "{PATH} is before " ", not {MIN}"); vm_compute; reflexivity.
Defined.
